(** * nogu: beatmap request operator, remote lookups and score submission

    A shallow embedding of [app/interaction.py] ([Beatmap._save_response],
    [Beatmap.request_api], [Score.submit_raw]) and of
    [nogu-nekko/app/api/beatmaps.py] ([BeatmapRequestOperator.operate],
    [stream_beatmap]), together with a model of the broker ([Operator])
    that mediates them.

    Python code with effects is written in a state-and-exception monad over
    the record [World]; dictionaries are [gmap]s, waiter sets are [gset]s.
    A [str] is a [string]: a sequence of characters, of which Rocq's [ascii]
    has 256. *)

From Stdlib Require Import ZArith Lia.
From stdpp Require Import base decidable option list gmap sets strings pretty.

Set Warnings "-register-all,-clear-no-such-hyp".

(** ** Python values *)

(** A Python float, kept as its IEEE-754 binary64 bit pattern.  The code only
    stores floats and hands them on; it never computes with them. *)
Record float64 := Float64 { float_bits : N }.

(** The objects the code manipulates: what [response.json()] decodes to, and
    what the [params] dictionary holds. *)
Inductive value :=
| VNone
| VBool (b : bool)
| VInt (n : Z)
| VFloat (f : float64)
| VStr (s : string)
| VList (l : list value)
| VDict (d : gmap string value).

(** Python truthiness ([if x:]). *)
Definition truthy (v : value) : bool :=
  match v with
  | VNone => false
  | VBool b => b
  | VInt n => negb (n =? 0)%Z
  | VFloat f => negb ((float_bits f =? 0)%N || (float_bits f =? 2 ^ 63)%N)
  | VStr s => negb (String.eqb s "")
  | VList l => match l with [] => false | _ => true end
  | VDict d => match map_to_list d with [] => false | _ => true end
  end.

(** Exceptions, by class, with the message or key they carry. *)
Inductive exn :=
| KeyError (key : string)
| ValueError (msg : string)
| TypeError (msg : string).

Inductive result (A : Type) :=
| Ok (a : A)
| Raise (e : exn).
Arguments Ok {A} a.
Arguments Raise {A} e.

Global Instance result_ret : MRet result := λ A a, Ok a.
Global Instance result_bind : MBind result := λ A B f r,
  match r with Ok a => f a | Raise e => Raise e end.

(** ** Built-in operations the code applies to decoded values *)

(** [v[a:b]] for non-negative literal bounds. *)
Definition slice (v : value) (a b : nat) : result value :=
  match v with
  | VStr s => Ok (VStr (String.substring a (b - a) s))
  | VList l => Ok (VList (take (b - a) (drop a l)))
  | _ => Raise (TypeError "object is not subscriptable")
  end.

(** [d[k]] on a [dict] with string keys. *)
Definition getitem (d : gmap string value) (k : string) : result value :=
  match d !! k with
  | Some v => Ok v
  | None => Raise (KeyError k)
  end.

Fixpoint chars (s : string) : list value :=
  match s with
  | EmptyString => []
  | String c s' => VStr (String c EmptyString) :: chars s'
  end.

(** What [for entry in v] iterates over. *)
Definition iterate (v : value) : result (list value) :=
  match v with
  | VList l => Ok l
  | VDict d => Ok (VStr <$> (map_to_list d).*1)
  | VStr s => Ok (chars s)
  | _ => Raise (TypeError "object is not iterable")
  end.

(** [datetime.datetime(year=..., ...)]: the constructor checks its fields in
    this order and raises [ValueError] on the first one out of range. *)
Record datetime := Datetime {
  year : Z; month : Z; day : Z; hour : Z; minute : Z; second : Z
}.

Definition is_leap (y : Z) : bool :=
  (((y mod 4 =? 0) && negb (y mod 100 =? 0)) || (y mod 400 =? 0))%Z.

Definition days_in_month (y m : Z) : Z :=
  if (m =? 2)%Z then (if is_leap y then 29 else 28)%Z
  else if ((m =? 4) || (m =? 6) || (m =? 9) || (m =? 11))%Z then 30%Z
  else 31%Z.

Definition in_range (lo x hi : Z) : bool := ((lo <=? x) && (x <=? hi))%Z.

Definition datetime_new (y mo d h mi s : Z) : result datetime :=
  if negb (in_range 1 y 9999) then Raise (ValueError "year is out of range")
  else if negb (in_range 1 mo 12) then Raise (ValueError "month must be in 1..12")
  else if negb (in_range 1 d (days_in_month y mo))
       then Raise (ValueError "day is out of range for month")
  else if negb (in_range 0 h 23) then Raise (ValueError "hour must be in 0..23")
  else if negb (in_range 0 mi 59) then Raise (ValueError "minute must be in 0..59")
  else if negb (in_range 0 s 59) then Raise (ValueError "second must be in 0..59")
  else Ok (Datetime y mo d h mi s).

(** ** Rows of the relational schema *)

(** [class Beatmap(Base)]: the columns [_save_response] assigns, each with the
    type of the Python object assigned to it ([updated_at] and [server_id]
    are filled in by column defaults). *)
Module Beatmap.
Record row := Row {
  md5 : value;
  id : value;
  set_id : value;
  ranked_status : value;
  artist : value;
  title : value;
  version : value;
  creator : value;
  filename : string;
  total_length : Z;
  max_combo : Z;
  mode : Z;
  bpm : float64;
  cs : float64;
  od : float64;
  ar : float64;
  hp : float64;
  star_rating : float64;
  server_updated_at : datetime
}.
End Beatmap.

(** [class Score(Base)]: the columns a caller supplies ([score_id],
    [created_at] and [server_id] are column defaults). *)
Module Score.
Record row := Row {
  user_id : Z;
  beatmap_md5 : string;
  score : Z;
  performance_points : float64;
  accuracy : float64;
  highest_combo : Z;
  full_combo : bool;
  mods : Z;
  num_300s : Z;
  num_100s : Z;
  num_50s : Z;
  num_misses : Z;
  num_gekis : Z;
  num_katus : Z;
  grade : string;
  mode : Z;
  stage_id : Z
}.
End Score.

(** [class User]: the attributes [stream_beatmap] reads. *)
Module User.
Record row := Row { id : Z; username : string }.
End User.

(** An [AsyncSession], identified by the order in which it was opened. *)
Record AsyncSession := { session_no : nat }.

(** The answer of [sessions.http_client.get]: the status line and what
    [await response.json()] yields. *)
Record Response := { http_status : Z; json : result value }.

(** ** Messages and the operator object *)

Inductive Status := success | failure.

(** [ModelResponse(identifier=..., status=..., data=...)]; [data] carries the
    beatmap that [BeatmapBase.from_orm] projects. *)
Record ModelResponse := {
  identifier : string;
  status : Status;
  data : option Beatmap.row
}.

(** How an execution of the operation body ends. *)
Inductive outcome :=
| Returned (m : ModelResponse)
| Raised (e : exn).

(** Modelled from the spec: the [Operator] base class ([app/definition.py])
    is not among the sources; its state follows the spec's data model:
    the Throttle Ledger ([ledger], key to [lastExecutedAt]), the In-Flight
    Registry ([in_flight], key to waiter set), the most recent ResultMessage
    retained per key ([retained], kept only under the skip policy
    [retain_results]) and one SessionChannel per session ([channels]).
    [started] lists the invocations of [run] in the order the broker made
    them, [submissions] the calls of [new_operation].  [skip_next_interval]
    is the attribute [operate] assigns. *)
Record Operator := {
  interval : Z;
  retain_results : bool;
  skip_next_interval : bool;
  in_flight : gmap string (gset string);
  ledger : gmap string Z;
  retained : gmap string ModelResponse;
  channels : gmap string (list ModelResponse);
  started : list (string * string);
  submissions : list (string * string)
}.

(** What the process writes with [log]. *)
Inductive log_line :=
| LogApiRequest (params : gmap string value)
| LogStreaming (username : string) (n_maps : nat).

(** ** The world the code runs in *)

Record World := {
  beatmaps : list Beatmap.row;       (* table "beatmaps" *)
  scores : list Score.row;           (* table "scores" *)
  db_sessions : nat;                 (* database sessions opened so far *)
  console : list log_line;
  clock : Z;
  operator : Operator                (* beatmap_request_operator *)
}.

Definition set_beatmaps (f : list Beatmap.row → list Beatmap.row) (w : World) : World :=
  {| beatmaps := f (beatmaps w); scores := scores w; db_sessions := db_sessions w;
     console := console w; clock := clock w; operator := operator w |}.

Definition set_scores (f : list Score.row → list Score.row) (w : World) : World :=
  {| beatmaps := beatmaps w; scores := f (scores w); db_sessions := db_sessions w;
     console := console w; clock := clock w; operator := operator w |}.

Definition set_db_sessions (f : nat → nat) (w : World) : World :=
  {| beatmaps := beatmaps w; scores := scores w; db_sessions := f (db_sessions w);
     console := console w; clock := clock w; operator := operator w |}.

Definition set_console (f : list log_line → list log_line) (w : World) : World :=
  {| beatmaps := beatmaps w; scores := scores w; db_sessions := db_sessions w;
     console := f (console w); clock := clock w; operator := operator w |}.

Definition set_operator (f : Operator → Operator) (w : World) : World :=
  {| beatmaps := beatmaps w; scores := scores w; db_sessions := db_sessions w;
     console := console w; clock := clock w; operator := f (operator w) |}.

(** Effectful code: it reads and updates the world and either returns or
    raises; what it changed before raising stays changed. *)
Definition M (A : Type) : Type := World → result A * World.

Global Instance M_ret : MRet M := λ A a w, (Ok a, w).
Global Instance M_bind : MBind M := λ A B f c w,
  match c w with
  | (Ok a, w') => f a w'
  | (Raise e, w') => (Raise e, w')
  end.

Definition lift {A} (r : result A) : M A := λ w, (r, w).
Definition modify (f : World → World) : M unit := λ w, (Ok (), f w).

(** A computation keeps a component [f] of the world when it leaves it as it
    found it, whether it returns or raises. *)
Definition keeps {A B} (f : World → B) (c : M A) : Prop :=
  ∀ w, f (c w).2 = f w.

(** [for x in xs: body(x)] *)
Fixpoint for_each {A} (xs : list A) (body : A → M unit) : M unit :=
  match xs with
  | [] => mret ()
  | x :: xs' => body x ≫= λ _, for_each xs' body
  end.

(** [log(...)] *)
Definition log (l : log_line) : M unit := modify (set_console (λ c, c ++ [l])).

(** Opening a database session, with [database_session()] as a context
    manager or with [async_session_maker()] (both of [app/database.py], not
    among the sources): the sessions are numbered as they are opened. *)
Definition open_session : M AsyncSession :=
  λ w, (Ok {| session_no := db_sessions w |}, set_db_sessions S w).

(** Modelled from the spec: [database.add_model] ([app/database.py]) is not
    among the sources; it is read as the spec's "persist": the object becomes
    a row of its table and is handed back. *)
Definition add_model_beatmap (session : AsyncSession) (b : Beatmap.row) : M Beatmap.row :=
  λ w, (Ok b, set_beatmaps (λ t, t ++ [b]) w).

Definition add_model_score (session : AsyncSession) (s : Score.row) : M Score.row :=
  λ w, (Ok s, set_scores (λ t, t ++ [s]) w).

(** ** What the surrounding application and the Python runtime supply *)

(** Constants and helpers of modules that are not among the sources
    ([app.definition], [config], [sessions], [app.database]), and the
    built-ins whose exact behaviour the development does not depend on.
    Every statement below holds for any choice of them. *)
Class Externals := {
  (* app.definition *)
  MD5_PATTERN_match : string → bool;
  IGNORED_BEATMAP_CHARS : string → string;
  AstChecker_check : string → gmap string value → bool;
  (* config *)
  config_debug : bool;
  config_osu_api_v1_key : string;
  (* built-ins *)
  isnumeric : string → bool;
  int_ : value → result Z;
  float_ : value → result float64;
  format_field : value → string;
  (* sessions.http_client *)
  http_client_get : string → gmap string value → result Response;
  (* app.database, and Beatmap.from_ident (the local-store lookup) *)
  select_beatmap_by_id : list Beatmap.row → value → option Beatmap.row;
  get_beatmap_by_md5 : list Beatmap.row → value → option Beatmap.row;
  lookup_ident : list Beatmap.row → string → option Beatmap.row
}.

(** ** The broker

    [Operator.new_operation], the execution of the operation body and the
    delivery of its result live in [app/definition.py], which is not among
    the sources.  The definitions of this part follow the spec's admission
    algorithm (section 4.1), one atomic step per action of the broker:
    [submit] is the admission decision, [complete] what the broker does when
    an execution of [run] ends. *)

Definition set_in_flight (f : gmap string (gset string) → gmap string (gset string))
  (op : Operator) : Operator :=
  {| interval := interval op; retain_results := retain_results op;
     skip_next_interval := skip_next_interval op;
     in_flight := f (in_flight op); ledger := ledger op; retained := retained op;
     channels := channels op; started := started op; submissions := submissions op |}.

Definition set_ledger (f : gmap string Z → gmap string Z) (op : Operator) : Operator :=
  {| interval := interval op; retain_results := retain_results op;
     skip_next_interval := skip_next_interval op;
     in_flight := in_flight op; ledger := f (ledger op); retained := retained op;
     channels := channels op; started := started op; submissions := submissions op |}.

Definition set_retained (f : gmap string ModelResponse → gmap string ModelResponse)
  (op : Operator) : Operator :=
  {| interval := interval op; retain_results := retain_results op;
     skip_next_interval := skip_next_interval op;
     in_flight := in_flight op; ledger := ledger op; retained := f (retained op);
     channels := channels op; started := started op; submissions := submissions op |}.

Definition set_channels
  (f : gmap string (list ModelResponse) → gmap string (list ModelResponse))
  (op : Operator) : Operator :=
  {| interval := interval op; retain_results := retain_results op;
     skip_next_interval := skip_next_interval op;
     in_flight := in_flight op; ledger := ledger op; retained := retained op;
     channels := f (channels op); started := started op; submissions := submissions op |}.

Definition set_started (f : list (string * string) → list (string * string))
  (op : Operator) : Operator :=
  {| interval := interval op; retain_results := retain_results op;
     skip_next_interval := skip_next_interval op;
     in_flight := in_flight op; ledger := ledger op; retained := retained op;
     channels := channels op; started := f (started op); submissions := submissions op |}.

Definition set_submissions (f : list (string * string) → list (string * string))
  (op : Operator) : Operator :=
  {| interval := interval op; retain_results := retain_results op;
     skip_next_interval := skip_next_interval op;
     in_flight := in_flight op; ledger := ledger op; retained := retained op;
     channels := channels op; started := started op; submissions := f (submissions op) |}.

Definition set_skip_next_interval (b : bool) (op : Operator) : Operator :=
  {| interval := interval op; retain_results := retain_results op;
     skip_next_interval := b;
     in_flight := in_flight op; ledger := ledger op; retained := retained op;
     channels := channels op; started := started op; submissions := submissions op |}.

(** Modelled from the spec: a SessionChannel, the messages queued for a
    session, oldest first. *)
Definition channel (ch : gmap string (list ModelResponse)) (session : string)
  : list ModelResponse :=
  default [] (ch !! session).

(** Modelled from the spec: [publish(session, msg)] appends to the session's
    channel. *)
Definition publish (session : string) (msg : ModelResponse)
  (ch : gmap string (list ModelResponse)) : gmap string (list ModelResponse) :=
  <[session := channel ch session ++ [msg]]> ch.

(** Modelled from the spec: "[key] has a ThrottleEntry with
    [now - lastExecutedAt < interval]". *)
Definition in_cooldown (op : Operator) (key : string) (now : Z) : bool :=
  match ledger op !! key with
  | Some lastExecutedAt => (now - lastExecutedAt <? interval op)%Z
  | None => false
  end.

(** Modelled from the spec: [submit(session, key)] at time [now], steps 1 to
    3 of the admission algorithm.  Step 1 coalesces, step 2 skips and queues
    the retained message if there is one, step 3 registers the key with the
    submitter as its only waiter and starts [run(session, key)]. *)
Definition submit (session key : string) (now : Z) (op : Operator) : Operator :=
  match in_flight op !! key with
  | Some waiters =>
      set_in_flight (λ r, <[key := {[session]} ∪ waiters]> r) op
  | None =>
      if in_cooldown op key now then
        match retained op !! key with
        | Some msg => set_channels (publish session msg) op
        | None => op
        end
      else
        set_started (λ l, l ++ [(session, key)])
          (set_in_flight (λ r, <[key := {[session]}]> r) op)
  end.

(** The broker after the loop of [stream_beatmap]: one [submit] per
    identifier, first to last, each recorded as a call of [new_operation]. *)
Definition submit_each (session : string) (now : Z) (idents : list string)
  (op : Operator) : Operator :=
  foldl (λ op ident,
           submit session ident now (set_submissions (λ l, l ++ [(session, ident)]) op))
        op idents.

(** Modelled from the spec: the ResultMessage the broker constructs for an
    execution of [key]: what [run] returned, or a Failure when it raised. *)
Definition message_of (key : string) (o : outcome) : ModelResponse :=
  match o with
  | Returned m => {| identifier := key; status := status m; data := data m |}
  | Raised _ => {| identifier := key; status := failure; data := None |}
  end.

(** Modelled from the spec: the execution of [key] ends with outcome [o];
    [now] is the time the broker records for it.  Update the ThrottleEntry,
    push the message to every waiter, keep the message for later skips if the
    policy says so, delete the InFlightEntry.  Nothing completes for a key
    that is not executing. *)
Definition complete (key : string) (o : outcome) (now : Z) (op : Operator) : Operator :=
  match in_flight op !! key with
  | None => op
  | Some waiters =>
      let msg := message_of key o in
      set_in_flight (delete key)
        (set_retained (λ c, if retain_results op then <[key := msg]> c else c)
          (set_channels (λ ch, set_fold (λ s acc, publish s msg acc) ch waiters)
            (set_ledger (λ l, <[key := now]> l) op)))
  end.

(** What happens to the broker, one atomic step at a time. *)
Inductive event :=
| Submit (session key : string) (now : Z)
| Complete (key : string) (o : outcome) (now : Z).

Definition step (op : Operator) (e : event) : Operator :=
  match e with
  | Submit session key now => submit session key now op
  | Complete key o now => complete key o now op
  end.

Definition run_events (es : list event) (op : Operator) : Operator :=
  foldl step op es.

(** The executions of [run] the broker started for [key]. *)
Definition executions (key : string) (op : Operator) : nat :=
  length (filter (λ sk, sk.2 = key) (started op)).

(** The ResultMessages for [key] queued for [session]. *)
Definition delivered (key session : string) (op : Operator) : nat :=
  length (filter (λ m, identifier m = key) (channel (channels op) session)).

(** The sessions that submit [key] in a run of events. *)
Fixpoint submitters (key : string) (es : list event) : gset string :=
  match es with
  | [] => ∅
  | Submit session key' _ :: es' =>
      if decide (key' = key) then {[session]} ∪ submitters key es' else submitters key es'
  | Complete _ _ _ :: es' => submitters key es'
  end.

(** No execution of [key] ends within the events. *)
Definition no_completion (key : string) (es : list event) : Prop :=
  ∀ key' o now, Complete key' o now ∈ es → key' ≠ key.

(** The in-flight window of [key]: the submission that starts its execution,
    what happens meanwhile, and the end of the execution. *)
Definition window (s0 key : string) (t0 : Z) (es : list event) (o : outcome) (t : Z)
  : list event :=
  Submit s0 key t0 :: es ++ [Complete key o t].

(** Every retained message is filed under its own key. *)
Definition retained_wf (op : Operator) : Prop :=
  ∀ key m, retained op !! key = Some m → identifier m = key.

(** A broker nothing was submitted to yet. *)
Definition new_operator (interval : Z) (retain_results : bool) : Operator :=
  {| interval := interval; retain_results := retain_results;
     skip_next_interval := false; in_flight := ∅; ledger := ∅;
     retained := ∅; channels := ∅; started := []; submissions := [] |}.

Section Program.
Context {runtime : Externals}.

(** ** [app/interaction.py] *)

(** [entry[k]] *)
Definition subscript (entry : value) (k : string) : result value :=
  match entry with
  | VDict d => getitem d k
  | _ => Raise (TypeError "object is not subscriptable")
  end.

(** The file name: the format string filled in from the entry's keys
    (the entry is unpacked as keyword arguments, so it has to be a mapping),
    then translated with [definition.IGNORED_BEATMAP_CHARS]. *)
Definition beatmap_filename (entry : value) : result string :=
  match entry with
  | VDict d =>
      artist ← getitem d "artist";
      title ← getitem d "title";
      creator ← getitem d "creator";
      version ← getitem d "version";
      mret (IGNORED_BEATMAP_CHARS
              (format_field artist +:+ " - " +:+ format_field title +:+ " (" +:+
               format_field creator +:+ ") [" +:+ format_field version +:+ "].osu"))
  | _ => Raise (TypeError "format() argument after ** must be a mapping")
  end.

(** [datetime(year=int(_last_update[0:4]), ..., second=int(_last_update[17:19]))] *)
Definition parse_last_update (_last_update : value) : result datetime :=
  y ← slice _last_update 0 4 ≫= int_;
  mo ← slice _last_update 5 7 ≫= int_;
  d ← slice _last_update 8 10 ≫= int_;
  h ← slice _last_update 11 13 ≫= int_;
  mi ← slice _last_update 14 16 ≫= int_;
  s ← slice _last_update 17 19 ≫= int_;
  datetime_new y mo d h mi s.

(** The body of the loop of [_save_response] up to the [Beatmap(...)] call:
    keyword arguments are evaluated left to right. *)
Definition beatmap_of_entry (entry : value) : result Beatmap.row :=
  filename ← beatmap_filename entry;
  _last_update ← subscript entry "last_update";
  last_update ← parse_last_update _last_update;
  md5 ← subscript entry "file_md5";
  id ← subscript entry "beatmap_id";
  set_id ← subscript entry "beatmapset_id";
  ranked_status ← subscript entry "approved";
  artist ← subscript entry "artist";
  title ← subscript entry "title";
  version ← subscript entry "version";
  creator ← subscript entry "creator";
  total_length ← subscript entry "total_length" ≫= int_;
  max_combo ← subscript entry "max_combo" ≫= int_;
  mode ← subscript entry "mode" ≫= int_;
  bpm_is_set ← subscript entry "bpm";
  bpm ← match bpm_is_set with
        | VNone => float_ (VInt 0)
        | _ => subscript entry "bpm" ≫= float_
        end;
  cs ← subscript entry "diff_size" ≫= float_;
  od ← subscript entry "diff_overall" ≫= float_;
  ar ← subscript entry "diff_approach" ≫= float_;
  hp ← subscript entry "diff_drain" ≫= float_;
  star_rating ← subscript entry "difficultyrating" ≫= float_;
  mret (Beatmap.Row md5 id set_id ranked_status artist title version creator
          filename total_length max_combo mode bpm cs od ar hp star_rating
          last_update).

(** [Beatmap._save_response] *)
Definition _save_response (session : AsyncSession) (response_data : value) : M unit :=
  entries ← lift (iterate response_data);
  for_each entries (λ entry,
    beatmap ← lift (beatmap_of_entry entry);
    _ ← add_model_beatmap session beatmap;
    mret ()).

(** [Beatmap.from_id], [Beatmap.from_md5]: reads of the table through
    [database.select_model] and [database.get_model] ([app/database.py], not
    among the sources); which row they pick is left to [Externals]. *)
Definition from_id (session : AsyncSession) (beatmap_id : value) : M (option Beatmap.row) :=
  λ w, (Ok (select_beatmap_by_id (beatmaps w) beatmap_id), w).

Definition from_md5 (session : AsyncSession) (md5 : value) : M (option Beatmap.row) :=
  λ w, (Ok (get_beatmap_by_md5 (beatmaps w) md5), w).

(** Modelled from the spec: [Beatmap.from_ident] is not among the sources;
    it is the spec's "check a local durable store for a cached result", a
    read of the beatmaps table whose choice of row is left to [Externals]. *)
Definition from_ident (session : AsyncSession) (ident : string) : M (option Beatmap.row) :=
  λ w, (Ok (lookup_ident (beatmaps w) ident), w).

(** Lines 120-125 of [request_api]: the query the identifier turns into. *)
Definition request_params (ident : string) : result (gmap string value) :=
  let params : gmap string value := ∅ in
  let params := if MD5_PATTERN_match ident then <["md5" := VStr ident]> params else params in
  if isnumeric ident
  then n ← int_ (VStr ident); mret (<["id" := VInt n]> params)
  else mret params.

(** Lines 129-133: the provider asked, and the key sent along. *)
Definition endpoint (params : gmap string value) : string * gmap string value :=
  if negb (String.eqb config_osu_api_v1_key "")
  then ("https://old.ppy.sh/api/get_beatmaps", <["k" := VStr config_osu_api_v1_key]> params)
  else ("https://osu.direct/api/get_beatmaps", params).

(** [Beatmap.request_api] *)
Definition request_api (ident : string) : M (option Beatmap.row) :=
  params ← lift (request_params ident);
  _ ← (if config_debug then log (LogApiRequest params) else mret ());
  let '(url, params) := endpoint params in
  response ← lift (http_client_get url params);
  response_data ← lift (json response);
  if (http_status response =? 200)%Z && truthy response_data then
    session ← open_session;
    _ ← _save_response session response_data;
    id ← lift (getitem params "id");
    if truthy id then
      id ← lift (getitem params "id");
      from_id session id
    else
      md5 ← lift (getitem params "md5");
      if truthy md5 then
        md5 ← lift (getitem params "md5");
        from_md5 session md5
      else mret None
  else mret None.

(** The world after the debug line of [request_api]. *)
Definition after_debug_log (params : gmap string value) (w : World) : World :=
  if config_debug then set_console (λ c, c ++ [LogApiRequest params]) w else w.

(** The mapping [Score.submit_raw] hands to the condition evaluator. *)
Definition variables (self : Score.row) : gmap string value :=
  <["score" := VInt (Score.score self)]>
    (<["mods" := VInt (Score.mods self)]>
      (<["max_combo" := VInt (Score.highest_combo self)]>
        (<["acc" := VFloat (Score.accuracy self)]> ∅))).

(** [Score.submit_raw] *)
Definition submit_raw (self : Score.row) (session : AsyncSession) (condition : string)
  : M (option Score.row) :=
  if AstChecker_check condition (variables self)
  then s ← add_model_score session self; mret (Some s)
  else mret None.

(** ** [nogu-nekko/app/api/beatmaps.py] *)

(** [BeatmapRequestOperator.operate]; [self] is [beatmap_request_operator]. *)
Definition operate (session : string) (args : string) : M ModelResponse :=
  db_session ← open_session;
  beatmap ← from_ident db_session args;
  _ ← (if beatmap is Some _
       then modify (set_operator (set_skip_next_interval true))
       else mret ());
  beatmap ← (if beatmap is None then request_api args else mret beatmap);
  match beatmap with
  | None => mret {| identifier := args; status := failure; data := None |}
  | Some b => mret {| identifier := args; status := success; data := Some b |}
  end.

(** Modelled from the spec: [Operator.new_operation(session, args)]
    ([app/definition.py], not among the sources) is the spec's
    [submit(session, key)], taken at the current time; the call is recorded in
    [submissions]. *)
Definition new_operation (session : string) (args : string) : M unit :=
  λ w, (Ok (),
        set_operator (λ op, submit session args (clock w)
                              (set_submissions (λ l, l ++ [(session, args)]) op)) w).

(** The generator object [Operator.event_generator(request, session)] and
    the response wrapping it; nothing of the generator runs before the
    response is returned and the transport starts to iterate it. *)
Record Request := { connection : nat }.
Record EventSourceResponse := { event_generator : Request * string }.

(** [stream_beatmap]; [str(user.id)] is the session identity. *)
Definition stream_beatmap (request : Request) (idents : list string) (user : User.row)
  : M EventSourceResponse :=
  _ ← log (LogStreaming (User.username user) (length idents));
  _ ← for_each idents (λ ident, new_operation (pretty (User.id user)) ident);
  mret {| event_generator := (request, pretty (User.id user)) |}.

(** How a call of the operation body ended, as the broker sees it. *)
Definition outcome_of (r : result ModelResponse) : outcome :=
  match r with
  | Ok m => Returned m
  | Raise e => Raised e
  end.

(** The body failed: it raised, or it returned a failure. *)
Definition fails (r : result ModelResponse) : Prop :=
  match r with
  | Ok m => status m = failure
  | Raise _ => True
  end.

(** Modelled from the spec: one execution from the broker's side.  The body
    [operate] runs; whatever it returns or raises is caught at the broker
    boundary and handed to [complete]. *)
Definition execute (session : string) (key : string) : M unit :=
  λ w, let '(r, w') := operate session key w in
       (Ok (), set_operator (complete key (outcome_of r) (clock w')) w').

End Program.

(** ** A runtime to evaluate the code on

    One choice of [Externals], for running the definitions on concrete
    inputs: plain ASCII identifiers and decimal literals, on which the
    stand-ins below do what CPython does. *)

Definition is_digit (c : Ascii.ascii) : bool :=
  let n := Ascii.nat_of_ascii c in (48 <=? n)%nat && (n <=? 57)%nat.

Definition is_hex_digit (c : Ascii.ascii) : bool :=
  let n := Ascii.nat_of_ascii c in is_digit c || ((97 <=? n)%nat && (n <=? 102)%nat).

Fixpoint all_chars (p : Ascii.ascii → bool) (s : string) : bool :=
  match s with
  | EmptyString => true
  | String c s' => p c && all_chars p s'
  end.

Fixpoint decimal (acc : Z) (s : string) : Z :=
  match s with
  | EmptyString => acc
  | String c s' => decimal (10 * acc + Z.of_nat (Ascii.nat_of_ascii c - 48)) s'
  end.

Definition ascii_isnumeric (s : string) : bool :=
  negb (String.eqb s "") && all_chars is_digit s.

Definition ascii_md5 (s : string) : bool :=
  (String.length s =? 32)%nat && all_chars is_hex_digit s.

Definition decimal_int (v : value) : result Z :=
  match v with
  | VInt n => Ok n
  | VStr s => if ascii_isnumeric s then Ok (decimal 0 s)
              else Raise (ValueError "invalid literal for int() with base 10")
  | _ => Raise (TypeError "int() argument must be a string or a number")
  end.

Definition zero_float (v : value) : result float64 :=
  match v with
  | VFloat f => Ok f
  | VInt 0 => Ok (Float64 0)
  | VStr "0" => Ok (Float64 0)
  | _ => Raise (ValueError "could not convert string to float")
  end.

Definition plain_field (v : value) : string :=
  match v with
  | VStr s => s
  | VInt n => pretty n
  | _ => "None"
  end.

Definition same_text (a b : value) : bool :=
  String.eqb (plain_field a) (plain_field b).

(** The runtime: the provider answers every request with [response], the
    condition evaluator accepts exactly when [accept], no API key is set. *)
Definition sample_runtime (response : result Response) (accept : bool) : Externals :=
  {| MD5_PATTERN_match := ascii_md5;
     IGNORED_BEATMAP_CHARS := λ s, s;
     AstChecker_check := λ _ _, accept;
     config_debug := false;
     config_osu_api_v1_key := "";
     isnumeric := ascii_isnumeric;
     int_ := decimal_int;
     float_ := zero_float;
     format_field := plain_field;
     http_client_get := λ _ _, response;
     select_beatmap_by_id := λ rows v, List.find (λ b, same_text (Beatmap.id b) v) rows;
     get_beatmap_by_md5 := λ rows v, List.find (λ b, same_text (Beatmap.md5 b) v) rows;
     lookup_ident := λ rows ident,
       List.find (λ b, same_text (Beatmap.md5 b) (VStr ident)
                       || same_text (Beatmap.id b) (VStr ident)) rows |}.

Definition empty_world : World :=
  {| beatmaps := []; scores := []; db_sessions := 0; console := []; clock := 0;
     operator := new_operator 60 true |}.

(** One entry of a [get_beatmaps] answer, as the osu! API sends it: every
    field a string. *)
Definition sample_entry (file_md5 beatmap_id last_update : string) : value :=
  VDict (list_to_map
    [("file_md5", VStr file_md5); ("beatmap_id", VStr beatmap_id);
     ("beatmapset_id", VStr "1"); ("approved", VStr "1");
     ("artist", VStr "a"); ("title", VStr "t"); ("version", VStr "v");
     ("creator", VStr "c"); ("last_update", VStr last_update);
     ("total_length", VStr "90"); ("max_combo", VStr "100"); ("mode", VStr "0");
     ("bpm", VStr "0"); ("diff_size", VStr "0"); ("diff_overall", VStr "0");
     ("diff_approach", VStr "0"); ("diff_drain", VStr "0");
     ("difficultyrating", VStr "0")]).

Definition sample_md5 : string := "0123456789abcdef0123456789abcdef".

Definition sample_score : Score.row :=
  Score.Row 7 sample_md5 1000000 (Float64 0) (Float64 0) 100 true 0
            100 0 0 0 0 0 "S" 0 1.

(** The provider's answers used in the examples. *)
Definition answer (http_status : Z) (body : value) : result Response :=
  Ok {| http_status := http_status; json := Ok body |}.

Definition found : value :=
  VList [sample_entry sample_md5 "75" "2020-01-02 03:04:05"].

Definition malformed : value :=
  VList [sample_entry sample_md5 "75" ""].

(** A server error whose body is not JSON: [response.json()] raises the
    decoder's [ValueError]. *)
Definition undecodable : result Response :=
  Ok {| http_status := 500; json := Raise (ValueError "Expecting value") |}.

(** An identifier that is numeric, has the value zero and matches the MD5
    pattern. *)
Definition zeros_md5 : string := "00000000000000000000000000000000".

Definition found_zeros : value :=
  VList [sample_entry zeros_md5 "0" "2020-01-02 03:04:05"].

(** A broker in which session ["7"] has submitted [sample_md5] and the
    execution is under way. *)
Definition busy_world : World :=
  set_operator (submit "7" sample_md5 0) empty_world.

(** * More of the code *)

(** ** Dates *)

(** What [datetime(...)] accepts: a date of the proleptic Gregorian calendar
    and a time of day. *)
Definition valid_datetime (dt : datetime) : Prop :=
  (1 ≤ year dt ≤ 9999 ∧ 1 ≤ month dt ≤ 12 ∧
   1 ≤ day dt ≤ days_in_month (year dt) (month dt) ∧
   0 ≤ hour dt ≤ 23 ∧ 0 ≤ minute dt ≤ 59 ∧ 0 ≤ second dt ≤ 59)%Z.

(** The column value [x] comes from key [k] of the entry through the
    conversion [conv]. *)
Definition column_from {A} (d : gmap string value) (k : string)
  (conv : value → result A) (x : A) : Prop :=
  ∃ v, d !! k = Some v ∧ conv v = Ok x.

(** The body of the loop of [_save_response], as [for_each] runs it. *)
Definition save_entry {runtime : Externals} (session : AsyncSession) (entry : value) : M unit :=
  beatmap ← lift (beatmap_of_entry entry);
  _ ← add_model_beatmap session beatmap;
  mret ().

(** The rows come from the provider's answer to the request for [ident]:
    the answer was good (status 200, non-empty body), and the rows are those
    of the first entries of the decoded body, in order. *)
Definition from_answer {runtime : Externals} (ident : string) (rows : list Beatmap.row)
  : Prop :=
  ∃ params response response_data entries pre post,
    request_params ident = Ok params ∧
    http_client_get (endpoint params).1 (endpoint params).2 = Ok response ∧
    http_status response = 200%Z ∧
    json response = Ok response_data ∧
    truthy response_data = true ∧
    iterate response_data = Ok entries ∧
    entries = pre ++ post ∧
    Forall2 (λ entry b, beatmap_of_entry entry = Ok b) pre rows.

(** ** [get_beatmap] ([nogu-nekko/app/api/beatmaps.py]) *)

(** [APIResponse(...)] with the keyword arguments the handler passes; an
    argument it does not pass is left to the schema. *)
Module APIResponse.
Record t := Make {
  success : option bool;
  info : option string;
  beatmap : option Beatmap.row
}.
End APIResponse.

Section Routes.
Context {runtime : Externals}.

(** [get_beatmap] *)
Definition get_beatmap (ident : string) : M APIResponse.t :=
  session ← open_session;
  beatmap ← from_ident session ident;
  match beatmap with
  | None => mret (APIResponse.Make (Some false) (Some "Beatmap not found.") None)
  | Some b => mret (APIResponse.Make None None (Some b))
  end.

End Routes.

(** ** [Score.from_web] ([app/interaction.py]) *)

(** [class Stage(Base)]: its plain columns. *)
Module Stage.
Record row := Row {
  id : Z;
  name : string;
  mode : Z;
  formula : Z;
  pool_id : Z;
  team_id : Z
}.
End Stage.

(** [Raw['Score'](score)]: the wrapper of [app.definition]. *)
Record Raw (A : Type) := { raw : A }.
Arguments raw {A} _.

(** What [from_web] takes from modules that are not among the sources:
    the table [dict_id2obj] of [app.constants.formulas], each formula given
    by its [calculate(mode=...)], and the constructor that the declarative
    [Base] gives [Score]. *)
Class Scoring := {
  score_object : Type;
  dict_id2obj : gmap Z (Z → result float64);
  Score_new : gmap string value → result score_object
}.

(** [d[k]] on [dict_id2obj]; the [KeyError] carries the key in decimal. *)
Definition getitem_formula {scoring : Scoring} (formula_id : Z) : result (Z → result float64) :=
  match dict_id2obj !! formula_id with
  | Some calculate => Ok calculate
  | None => Raise (KeyError (pretty formula_id))
  end.

(** The keyword arguments of a call that unpacks the dictionary [kwargs] and
    then names [k1=v1, ..., kn=vn]: a keyword given both ways is a
    [TypeError]. *)
Fixpoint keywords (kwargs : gmap string value) (explicit : list (string * value))
  : result (gmap string value) :=
  match explicit with
  | [] => Ok kwargs
  | (k, v) :: rest =>
      match kwargs !! k with
      | Some _ => Raise (TypeError "got multiple values for keyword argument")
      | None => keywords (<[k := v]> kwargs) rest
      end
  end.

(** [Score.from_web] *)
Definition from_web {scoring : Scoring} (info : gmap string value) (stage : Stage.row)
  : result (Raw score_object) :=
  calculate ← getitem_formula (Stage.formula stage);
  pp ← calculate (Stage.mode stage);
  kwargs ← keywords info [("stage_id", VInt (Stage.id stage));
                          ("performance_points", VFloat pp)];
  score ← Score_new kwargs;
  mret {| raw := score |}.

(** ** [Team.position_of] ([app/interaction.py]) *)

(** The names the body of [class Team(Base)] binds. *)
Definition Team_names : list string :=
  ["__tablename__"; "id"; "name"; "privacy"; "achieved"; "create_at"; "finish_at";
   "active_stage_id"; "active_stage"; "member"; "stages"; "position_of"].

(** An [AttributeError], or an exception of the other kinds. *)
Inductive fault :=
| AttributeError (name : string)
| Other (e : exn).

(** What [position_of] takes from outside [class Team]: [object_session]
    (the session the object is attached to, or [None]), the value of an
    attribute the class body binds ([Team_attribute]), the attributes a
    [Team] has from elsewhere ([inherited_attribute]: the declarative [Base],
    back references), [session.scalar], the attribute [users] of its result,
    [database.query_model] with the condition [User.id == user_id], and the
    two members of [MemberPosition] it returns. *)
Class Membership := {
  team_object : Type;
  MemberPosition : Type;
  EMPTY : MemberPosition;
  MEMBER : MemberPosition;
  object_session : team_object → option AsyncSession;
  Team_attribute : team_object → string → value;
  inherited_attribute : team_object → string → option value;
  session_scalar : value → result value;
  users_of : value → fault + value;
  query_model_user : value → Z → result (option User.row)
}.

(** [self.name] on a [Team]. *)
Definition Team_getattr {membership : Membership} (self : team_object) (name : string) : fault + value :=
  if decide (name ∈ Team_names) then inr (Team_attribute self name)
  else match inherited_attribute self name with
       | Some v => inr v
       | None => inl (AttributeError name)
       end.

(** [Team.position_of].  In [session.scalar(self.team)] the method is looked
    up on [session] before the argument is evaluated. *)
Definition position_of {membership : Membership} (self : team_object) (user_id : Z)
  : fault + MemberPosition :=
  match object_session self with
  | None => inl (AttributeError "scalar")
  | Some session =>
      match Team_getattr self "team" with
      | inl f => inl f
      | inr self_team =>
          match session_scalar self_team with
          | Raise e => inl (Other e)
          | Ok team =>
              match users_of team with
              | inl f => inl f
              | inr users =>
                  match query_model_user users user_id with
                  | Raise e => inl (Other e)
                  | Ok None => inr EMPTY
                  | Ok (Some _) => inr MEMBER
                  end
              end
          end
      end
  end.

(** ** A runtime in which [isnumeric] and [int] disagree *)

(** SUPERSCRIPT TWO: [isnumeric] accepts it, [int] does not. *)
Definition superscript_two : string :=
  String (Ascii.ascii_of_nat 178) EmptyString.

Definition superscript_runtime (response : result Response) : Externals :=
  {| MD5_PATTERN_match := ascii_md5;
     IGNORED_BEATMAP_CHARS := λ s, s;
     AstChecker_check := λ _ _, true;
     config_debug := true;
     config_osu_api_v1_key := "secret";
     isnumeric := λ s, ascii_isnumeric s || String.eqb s superscript_two;
     int_ := decimal_int;
     float_ := zero_float;
     format_field := plain_field;
     http_client_get := λ _ _, response;
     select_beatmap_by_id := λ rows v, List.find (λ b, same_text (Beatmap.id b) v) rows;
     get_beatmap_by_md5 := λ rows v, List.find (λ b, same_text (Beatmap.md5 b) v) rows;
     lookup_ident := λ rows ident,
       List.find (λ b, same_text (Beatmap.md5 b) (VStr ident)
                       || same_text (Beatmap.id b) (VStr ident)) rows |}.

(** A formula table with one formula (id 1, always 0.0) and a constructor
    that keeps the keyword arguments; a team class with nothing inherited. *)
Definition sample_scoring : Scoring :=
  {| score_object := gmap string value;
     dict_id2obj := {[ 1%Z := λ _, Ok (Float64 0) ]};
     Score_new := λ kwargs, Ok kwargs |}.

Definition sample_stage : Stage.row := Stage.Row 3 "Quarterfinals" 0 1 1 1.

Definition sample_membership : Membership :=
  {| team_object := unit;
     MemberPosition := bool;
     EMPTY := false;
     MEMBER := true;
     object_session := λ _, Some {| session_no := 0 |};
     Team_attribute := λ _ _, VNone;
     inherited_attribute := λ _ _, None;
     session_scalar := λ v, Ok v;
     users_of := λ v, inr v;
     query_model_user := λ _ _, Ok None |}.

(** The row that [sample_entry sample_md5 "75" ...] becomes. *)
Definition sample_row : Beatmap.row :=
  Beatmap.Row (VStr sample_md5) (VStr "75") (VStr "1") (VStr "1")
    (VStr "a") (VStr "t") (VStr "v") (VStr "c") "a - t (c) [v].osu"
    90 100 0 (Float64 0) (Float64 0) (Float64 0) (Float64 0) (Float64 0) (Float64 0)
    (Datetime 2020 1 2 3 4 5).

(** An answer with three entries, the second one with an empty
    [last_update]. *)
Definition second_entry_bad : value :=
  VList [sample_entry sample_md5 "75" "2020-01-02 03:04:05";
         sample_entry zeros_md5 "76" "";
         sample_entry zeros_md5 "77" "2020-01-02 03:04:05"].

(** * Properties *)

(** ** The monad *)

Lemma M_bind_unfold {A B} (c : M A) (f : A → M B) (w : World) :
  (c ≫= f) w = match c w with
               | (Ok a, w') => f a w'
               | (Raise e, w') => (Raise e, w')
               end.
Proof. reflexivity. Qed.

Lemma keeps_ret {A B} (f : World → B) (a : A) : keeps f (mret a).
Proof. by intros w. Qed.

Lemma keeps_lift {A B} (f : World → B) (r : result A) : keeps f (lift r).
Proof. by intros w. Qed.

Lemma keeps_bind {A A' B} (f : World → B) (c : M A) (k : A → M A') :
  keeps f c → (∀ a, keeps f (k a)) → keeps f (c ≫= k).
Proof.
  intros Hc Hk w. rewrite M_bind_unfold.
  specialize (Hc w). destruct (c w) as [[a|e] w']; simpl in *.
  - by rewrite Hk.
  - done.
Qed.

Lemma keeps_for_each {A B} (f : World → B) (xs : list A) (body : A → M unit) :
  (∀ x, keeps f (body x)) → keeps f (for_each xs body).
Proof.
  intros Hb. induction xs as [|x xs IH]; simpl.
  - apply keeps_ret.
  - apply keeps_bind; auto.
Qed.

Lemma keeps_if {A B} (f : World → B) (b : bool) (c1 c2 : M A) :
  keeps f c1 → keeps f c2 → keeps f (if b then c1 else c2).
Proof. by destruct b. Qed.

Create HintDb keeps discriminated.
#[local] Hint Resolve keeps_ret keeps_lift keeps_bind keeps_for_each keeps_if : keeps.

Section Properties.
Context {runtime : Externals}.

(** ** Frame properties of the database code *)

Lemma keeps_log {B} (f : World → B) (l : log_line) :
  (∀ g w, f (set_console g w) = f w) → keeps f (log l).
Proof. intros Hf w. apply Hf. Qed.

Lemma keeps_open_session {B} (f : World → B) :
  (∀ g w, f (set_db_sessions g w) = f w) → keeps f open_session.
Proof. intros Hf w. apply Hf. Qed.

Lemma keeps_add_model_beatmap {B} (f : World → B) session b :
  (∀ g w, f (set_beatmaps g w) = f w) → keeps f (add_model_beatmap session b).
Proof. intros Hf w. apply Hf. Qed.

Lemma keeps_save_response {B} (f : World → B) session response_data :
  (∀ g w, f (set_beatmaps g w) = f w) → keeps f (_save_response session response_data).
Proof.
  intros Hf. unfold _save_response.
  eauto 10 using keeps_add_model_beatmap with keeps.
Qed.

Lemma keeps_from_id {B} (f : World → B) session v : keeps f (from_id session v).
Proof. by intros w. Qed.

Lemma keeps_from_md5 {B} (f : World → B) session v : keeps f (from_md5 session v).
Proof. by intros w. Qed.

Lemma keeps_from_ident {B} (f : World → B) session v : keeps f (from_ident session v).
Proof. by intros w. Qed.

(** [request_api] touches the beatmaps table, the session counter and the
    console, and nothing else. *)
Lemma keeps_request_api {B} (f : World → B) ident :
  (∀ g w, f (set_beatmaps g w) = f w) →
  (∀ g w, f (set_db_sessions g w) = f w) →
  (∀ g w, f (set_console g w) = f w) →
  keeps f (request_api ident).
Proof.
  intros Hb Hs Hc. unfold request_api.
  apply keeps_bind; [auto with keeps|]. intros params.
  apply keeps_bind; [apply keeps_if; auto using keeps_log with keeps|]. intros _.
  destruct (endpoint params) as [url params'].
  apply keeps_bind; [auto with keeps|]. intros response.
  apply keeps_bind; [auto with keeps|]. intros response_data.
  apply keeps_if; [|auto with keeps].
  apply keeps_bind; [by apply keeps_open_session|]. intros session.
  apply keeps_bind; [by apply keeps_save_response|]. intros _.
  apply keeps_bind; [auto with keeps|]. intros id.
  apply keeps_if.
  - apply keeps_bind; [auto with keeps|]. intros. apply keeps_from_id.
  - apply keeps_bind; [auto with keeps|]. intros md5.
    apply keeps_if; [|auto with keeps].
    apply keeps_bind; [auto with keeps|]. intros. apply keeps_from_md5.
Qed.

(** ** [BeatmapRequestOperator.operate] and the throttle-cache flag *)

Lemma keeps_operate {B} (f : World → B) session args :
  (∀ g w, f (set_beatmaps g w) = f w) →
  (∀ g w, f (set_db_sessions g w) = f w) →
  (∀ g w, f (set_console g w) = f w) →
  (∀ b w, f (set_operator (set_skip_next_interval b) w) = f w) →
  keeps f (operate session args).
Proof.
  intros Hb Hs Hc Ho. unfold operate.
  apply keeps_bind; [by apply keeps_open_session|]. intros db_session.
  apply keeps_bind; [apply keeps_from_ident|]. intros beatmap.
  apply keeps_bind.
  { destruct beatmap; [|auto with keeps]. intros w. apply Ho. }
  intros _. apply keeps_bind.
  { destruct beatmap; [auto with keeps|]. by apply keeps_request_api. }
  intros [b|]; auto with keeps.
Qed.

(** What [operate] returns, by the outcome of the two lookups. *)
Lemma operate_unfold session args w :
  operate session args w =
    match lookup_ident (beatmaps w) args with
    | Some b =>
        (Ok {| identifier := args; status := success; data := Some b |},
         set_operator (set_skip_next_interval true) (set_db_sessions S w))
    | None =>
        match request_api args (set_db_sessions S w) with
        | (Ok (Some b), w') =>
            (Ok {| identifier := args; status := success; data := Some b |}, w')
        | (Ok None, w') =>
            (Ok {| identifier := args; status := failure; data := None |}, w')
        | (Raise e, w') => (Raise e, w')
        end
    end.
Proof.
  unfold operate. rewrite M_bind_unfold. simpl.
  rewrite M_bind_unfold. simpl.
  destruct (lookup_ident (beatmaps w) args) as [b|]; [done|].
  rewrite M_bind_unfold. simpl. rewrite M_bind_unfold.
  destruct (request_api args (set_db_sessions S w)) as [[[b|]|e] w']; done.
Qed.

(** X21. [operate] sets [skip_next_interval] to [True] exactly when the
    lookup of the key in the local store succeeds; when it misses, whether
    the remote fetch then succeeds, finds nothing or raises, the flag is what
    it was. *)
Theorem operate_skip_next_interval session args w :
  skip_next_interval (operator (operate session args w).2) =
    match lookup_ident (beatmaps w) args with
    | Some _ => true
    | None => skip_next_interval (operator w)
    end.
Proof.
  rewrite operate_unfold.
  destruct (lookup_ident (beatmaps w) args) as [b|] eqn:Hl; [done|].
  pose proof (keeps_request_api (λ w, skip_next_interval (operator w)) args) as Hk.
  specialize (Hk (λ _ _, eq_refl) (λ _ _, eq_refl) (λ _ _, eq_refl) (set_db_sessions S w)).
  destruct (request_api args (set_db_sessions S w)) as [[[b|]|e] w']; exact Hk.
Qed.

(** ** [Score.submit_raw] *)

(** C8. [submit_raw] hands the condition evaluator the mapping of [acc],
    [max_combo], [mods] and [score] to the score's accuracy, highest combo,
    mods and score.  If the evaluator accepts, the score becomes a row of the
    scores table and is returned; if it rejects, [None] is returned and the
    world is as before.  So the score is returned exactly when the evaluator
    accepts. *)
Theorem submit_raw_gate self session condition w :
  variables self =
    {[ "acc" := VFloat (Score.accuracy self) ]} ∪
    {[ "max_combo" := VInt (Score.highest_combo self) ]} ∪
    {[ "mods" := VInt (Score.mods self) ]} ∪
    {[ "score" := VInt (Score.score self) ]} ∧
  submit_raw self session condition w =
    (if AstChecker_check condition (variables self)
     then (Ok (Some self), set_scores (λ t, t ++ [self]) w)
     else (Ok None, w)) ∧
  ((submit_raw self session condition w).1 = Ok (Some self) ↔
   AstChecker_check condition (variables self) = true) ∧
  (scores (submit_raw self session condition w).2 =
     if AstChecker_check condition (variables self)
     then scores w ++ [self] else scores w).
Proof.
  split_and!.
  - apply map_eq. intros k. unfold variables.
    rewrite !lookup_union, !lookup_insert, !lookup_singleton, lookup_empty.
    repeat case_decide; simplify_eq; done.
  - unfold submit_raw. by destruct (AstChecker_check _ _).
  - unfold submit_raw. destruct (AstChecker_check _ _); simpl; split; done.
  - unfold submit_raw. by destruct (AstChecker_check _ _).
Qed.

(** ** [stream_beatmap] *)

Lemma submissions_submit session key now op :
  submissions (submit session key now op) = submissions op.
Proof.
  unfold submit. destruct (in_flight op !! key); [done|].
  destruct (in_cooldown op key now); [|done].
  by destruct (retained op !! key).
Qed.

Lemma submissions_submit_each session now idents op :
  submissions (submit_each session now idents op) =
    submissions op ++ ((λ ident, (session, ident)) <$> idents).
Proof.
  revert op. induction idents as [|ident idents IH]; intros op; simpl.
  - by rewrite app_nil_r.
  - unfold submit_each in *. simpl. rewrite IH, submissions_submit. simpl.
    by rewrite <- app_assoc.
Qed.

Lemma for_each_new_operation session idents w :
  (for_each idents (new_operation session) w).1 = Ok () ∧
  operator (for_each idents (new_operation session) w).2 =
    submit_each session (clock w) idents (operator w) ∧
  clock (for_each idents (new_operation session) w).2 = clock w.
Proof.
  revert w. induction idents as [|ident idents IH]; intros w; [done|].
  simpl. rewrite M_bind_unfold. simpl.
  destruct (IH (set_operator
    (λ op, submit session ident (clock w)
             (set_submissions (λ l, l ++ [(session, ident)]) op)) w))
    as (-> & -> & ->).
  done.
Qed.

(** C7. [stream_beatmap] calls [new_operation] once per identifier of the
    list, in list order, for the session [str(user.id)], and only then
    returns the response that wraps the session's event generator. *)
Theorem stream_beatmap_submits request idents user w :
  (stream_beatmap request idents user w).1 =
    Ok {| event_generator := (request, pretty (User.id user)) |} ∧
  submissions (operator (stream_beatmap request idents user w).2) =
    submissions (operator w) ++ ((λ ident, (pretty (User.id user), ident)) <$> idents) ∧
  operator (stream_beatmap request idents user w).2 =
    submit_each (pretty (User.id user)) (clock w) idents (operator w).
Proof.
  unfold stream_beatmap. rewrite M_bind_unfold. simpl.
  rewrite M_bind_unfold.
  pose proof (for_each_new_operation (pretty (User.id user)) idents
    (set_console (λ c, c ++ [LogStreaming (User.username user) (length idents)]) w))
    as (Hr & Ho & _).
  destruct (for_each idents _ _) as [[[]|e] w']; simpl in *; [|done].
  rewrite Ho. simpl. split_and!; [done| |done].
  apply submissions_submit_each.
Qed.

(** ** [Beatmap.request_api] *)

(** [request_api] up to the point where the response has been decoded. *)
Lemma request_api_decoded ident params response response_data w :
  request_params ident = Ok params →
  http_client_get (endpoint params).1 (endpoint params).2 = Ok response →
  json response = Ok response_data →
  request_api ident w =
    if (http_status response =? 200)%Z && truthy response_data then
      (session ← open_session;
       _ ← _save_response session response_data;
       id ← lift (getitem (endpoint params).2 "id");
       if truthy id then
         id ← lift (getitem (endpoint params).2 "id");
         from_id session id
       else
         md5 ← lift (getitem (endpoint params).2 "md5");
         if truthy md5 then
           md5 ← lift (getitem (endpoint params).2 "md5");
           from_md5 session md5
         else mret None) (after_debug_log params w)
    else (Ok None, after_debug_log params w).
Proof.
  intros Hp Hg Hj. unfold request_api, after_debug_log.
  rewrite M_bind_unfold, Hp. simpl. rewrite M_bind_unfold.
  destruct (endpoint params) as [url params'] eqn:He. simpl in Hg.
  destruct config_debug; simpl;
    rewrite M_bind_unfold, Hg; simpl; rewrite M_bind_unfold, Hj; simpl;
    by destruct (_ && _).
Qed.

(** [request_api] when [response.json()] raises: the body is decoded before
    the status is looked at, so the exception leaves [request_api] whatever
    the status. *)
Lemma request_api_undecoded ident params response e w :
  request_params ident = Ok params →
  http_client_get (endpoint params).1 (endpoint params).2 = Ok response →
  json response = Raise e →
  request_api ident w = (Raise e, after_debug_log params w).
Proof.
  intros Hp Hg Hj. unfold request_api, after_debug_log.
  rewrite M_bind_unfold, Hp. simpl. rewrite M_bind_unfold.
  destruct (endpoint params) as [url params'] eqn:He. simpl in Hg.
  destruct config_debug; simpl;
    rewrite M_bind_unfold, Hg; simpl; by rewrite M_bind_unfold, Hj.
Qed.

(** C10 (as the code has it). When the provider's answer has a status other
    than 200, or a decoded body that is empty (falsy), [request_api]
    persists nothing: no database session is opened and no row is added; the
    world is as before, up to the line the debug log writes.  It returns
    [None] if [response.json()] decoded the body, and raises the exception of
    [response.json()] if it did not. *)
Theorem request_api_failed_lookup ident params response w :
  request_params ident = Ok params →
  http_client_get (endpoint params).1 (endpoint params).2 = Ok response →
  http_status response ≠ 200%Z ∨
    (∃ response_data, json response = Ok response_data ∧ truthy response_data = false) →
  request_api ident w =
    (match json response with Ok _ => Ok None | Raise e => Raise e end,
     after_debug_log params w) ∧
  beatmaps (request_api ident w).2 = beatmaps w ∧
  db_sessions (request_api ident w).2 = db_sessions w ∧
  scores (request_api ident w).2 = scores w.
Proof.
  intros Hp Hg Hfail.
  assert (request_api ident w =
            (match json response with Ok _ => Ok None | Raise e => Raise e end,
             after_debug_log params w)) as ->.
  { destruct (json response) as [response_data|e] eqn:Hj.
    - rewrite (request_api_decoded _ _ _ _ _ Hp Hg Hj).
      destruct Hfail as [Hs | (data & [= <-] & Ht)].
      + apply Z.eqb_neq in Hs. by rewrite Hs.
      + by rewrite Ht, andb_false_r.
    - by apply (request_api_undecoded ident params response e w). }
  unfold after_debug_log. by destruct config_debug.
Qed.

(** Whether [_save_response] raises depends on the response alone. *)
Lemma save_response_result session session' response_data w w' :
  (_save_response session response_data w).1 =
  (_save_response session' response_data w').1.
Proof.
  unfold _save_response. rewrite !M_bind_unfold. simpl.
  destruct (iterate response_data) as [entries|e]; [|done].
  revert w w'. induction entries as [|entry entries IH]; intros w w'; [done|].
  simpl. rewrite !(M_bind_unfold (lift _ ≫= _)), !(M_bind_unfold (lift _)). simpl.
  destruct (beatmap_of_entry entry) as [b|e]; [|done].
  rewrite !M_bind_unfold. simpl. apply IH.
Qed.

(** The query for an identifier that matches the MD5 pattern and is not
    numeric has no ["id"]. *)
Lemma request_params_md5 ident :
  MD5_PATTERN_match ident = true → isnumeric ident = false →
  request_params ident = Ok {[ "md5" := VStr ident ]} ∧
  (endpoint {[ "md5" := VStr ident ]}).2 !! "id" = None.
Proof.
  intros Hm Hn. unfold request_params, endpoint. rewrite Hm, Hn. split; [done|].
  destruct (negb _); simpl.
  - rewrite lookup_insert_ne by done. by rewrite lookup_singleton_ne.
  - by rewrite lookup_singleton_ne.
Qed.

(** C9 (as the code has it). For an identifier that matches the MD5 pattern
    and is not numeric, when the provider answers with status 200 and a
    non-empty (truthy) decoded body, [request_api] never returns: it raises.
    The md5 return path is therefore out of reach.  When saving the response
    raises nothing, the exception is the [KeyError] of [params['id']];
    otherwise it is the exception [_save_response] raised.  (Whether and what
    [_save_response] raises depends on the body alone, so it may be run in
    any session and world to tell.) *)
Theorem request_api_md5_ident ident response response_data session w' w :
  MD5_PATTERN_match ident = true →
  isnumeric ident = false →
  http_client_get (endpoint {[ "md5" := VStr ident ]}).1
                  (endpoint {[ "md5" := VStr ident ]}).2 = Ok response →
  http_status response = 200%Z →
  json response = Ok response_data →
  truthy response_data = true →
  (request_api ident w).1 =
    match (_save_response session response_data w').1 with
    | Ok _ => Raise (KeyError "id")
    | Raise e => Raise e
    end ∧
  (∃ e, (request_api ident w).1 = Raise e) ∧
  (∀ b, (request_api ident w).1 ≠ Ok b).
Proof.
  intros Hm Hn Hg Hs Hj Ht.
  destruct (request_params_md5 ident Hm Hn) as [Hp Hid].
  rewrite (request_api_decoded _ _ _ _ _ Hp Hg Hj), Hs, Ht. simpl.
  rewrite M_bind_unfold. simpl. rewrite M_bind_unfold.
  set (session1 := {| session_no := _ |}). set (w1 := set_db_sessions S _).
  rewrite (save_response_result session session1 response_data w' w1).
  destruct (_save_response session1 response_data w1) as [[[]|e] w2]; simpl.
  - rewrite M_bind_unfold. unfold getitem, lift. rewrite Hid. simpl.
    split_and!; [done|by eauto|done].
  - split_and!; [done|by eauto|done].
Qed.

(** ** The return paths of [request_api] *)

Lemma for_each_save_rows session entries : ∀ w,
  (for_each entries (λ entry,
     beatmap ← lift (beatmap_of_entry entry);
     _ ← add_model_beatmap session beatmap;
     mret ()) w).1 = Ok () →
  ∃ rows,
    Forall2 (λ entry b, beatmap_of_entry entry = Ok b) entries rows ∧
    beatmaps (for_each entries (λ entry,
       beatmap ← lift (beatmap_of_entry entry);
       _ ← add_model_beatmap session beatmap;
       mret ()) w).2 = beatmaps w ++ rows.
Proof.
  induction entries as [|entry entries IH]; intros w; simpl.
  - intros _. exists []. split; [constructor|]. by rewrite app_nil_r.
  - rewrite !(M_bind_unfold (lift _ ≫= _)), !(M_bind_unfold (lift _)). simpl.
    destruct (beatmap_of_entry entry) as [b|e] eqn:Hb; [|done].
    rewrite !M_bind_unfold. simpl. intros Hok.
    destruct (IH _ Hok) as (rows & Hrows & Heq).
    exists (b :: rows). split; [by constructor|].
    rewrite Heq. simpl. by rewrite <- app_assoc.
Qed.

(** X1. When [_save_response] returns, every entry of the response has
    become a row, and the rows were appended to the beatmaps table in the
    order of the entries. *)
Theorem save_response_rows session response_data w :
  (_save_response session response_data w).1 = Ok () →
  ∃ entries rows,
    iterate response_data = Ok entries ∧
    Forall2 (λ entry b, beatmap_of_entry entry = Ok b) entries rows ∧
    beatmaps (_save_response session response_data w).2 = beatmaps w ++ rows.
Proof.
  unfold _save_response. rewrite M_bind_unfold. simpl.
  destruct (iterate response_data) as [entries|e]; [|done].
  intros Hok. destruct (for_each_save_rows session entries w Hok) as (rows & ? & ?).
  by exists entries, rows.
Qed.

Lemma request_params_numeric ident n :
  isnumeric ident = true → int_ (VStr ident) = Ok n →
  ∃ params,
    request_params ident = Ok params ∧
    (endpoint params).2 !! "id" = Some (VInt n) ∧
    (endpoint params).2 !! "md5" =
      if MD5_PATTERN_match ident then Some (VStr ident) else None.
Proof.
  intros Hn Hi. unfold request_params. rewrite Hn, Hi. simpl.
  eexists. split; [done|]. unfold endpoint.
  destruct (negb _), (MD5_PATTERN_match ident); simpl; split;
    repeat first [ rewrite lookup_insert_eq | rewrite lookup_insert_ne by done
                 | rewrite lookup_empty ]; done.
Qed.

(** [request_api] once the answer is good and saved: what is left is the
    choice between the two lookups. *)
Lemma request_api_saved ident params response response_data session0 w0 w :
  request_params ident = Ok params →
  http_client_get (endpoint params).1 (endpoint params).2 = Ok response →
  http_status response = 200%Z →
  json response = Ok response_data →
  truthy response_data = true →
  (_save_response session0 response_data w0).1 = Ok () →
  ∃ session w',
    request_api ident w =
      match (endpoint params).2 !! "id" with
      | None => (Raise (KeyError "id"), w')
      | Some id =>
          if truthy id then from_id session id w'
          else match (endpoint params).2 !! "md5" with
               | None => (Raise (KeyError "md5"), w')
               | Some md5 =>
                   if truthy md5 then from_md5 session md5 w' else (Ok None, w')
               end
      end.
Proof.
  intros Hp Hg Hs Hj Ht Hsave.
  rewrite (request_api_decoded _ _ _ _ _ Hp Hg Hj), Hs, Ht. simpl.
  rewrite M_bind_unfold. simpl. rewrite M_bind_unfold.
  set (session := {| session_no := _ |}). set (w1 := set_db_sessions S _).
  rewrite (save_response_result session0 session response_data w0 w1) in Hsave.
  destruct (_save_response session response_data w1) as [[[]|e] w2]; [|done].
  exists session, w2. rewrite M_bind_unfold. unfold getitem, lift.
  destruct (_ !! "id") as [id|]; [|done]. simpl.
  destruct (truthy id).
  { by rewrite M_bind_unfold. }
  rewrite M_bind_unfold. destruct (_ !! "md5") as [md5|]; [|done]. simpl.
  destruct (truthy md5); [|done]. by rewrite M_bind_unfold.
Qed.


(** X3. The md5 return path is taken only past a falsy [params['id']]: for
    a numeric identifier whose value is zero.  With a good answer saved,
    [request_api] then returns what [Beatmap.from_md5] finds if the
    identifier also matches the MD5 pattern, and raises the [KeyError] of
    [params['md5']] if it does not. *)
Theorem request_api_zero_ident ident params response response_data session0 w0 w :
  isnumeric ident = true →
  int_ (VStr ident) = Ok 0%Z →
  request_params ident = Ok params →
  http_client_get (endpoint params).1 (endpoint params).2 = Ok response →
  http_status response = 200%Z →
  json response = Ok response_data →
  truthy response_data = true →
  (_save_response session0 response_data w0).1 = Ok () →
  (request_api ident w).1 =
    if MD5_PATTERN_match ident
    then if truthy (VStr ident)
         then Ok (get_beatmap_by_md5 (beatmaps (request_api ident w).2) (VStr ident))
         else Ok None
    else Raise (KeyError "md5").
Proof.
  intros Hn Hi Hp Hg Hs Hj Ht Hsave.
  destruct (request_params_numeric ident 0 Hn Hi) as (params' & Hp' & Hid & Hmd5).
  assert (params' = params) as -> by congruence.
  destruct (request_api_saved ident params response response_data session0 w0 w
              Hp Hg Hs Hj Ht Hsave) as (session & w' & ->).
  rewrite Hid, Hmd5. simpl.
  destruct (MD5_PATTERN_match ident); [|done].
  unfold truthy. by destruct (negb (String.eqb ident "")).
Qed.

End Properties.

(** * The broker *)

Section Broker.
Implicit Types (op : Operator) (key session : string) (now : Z).
Implicit Types (ch : gmap string (list ModelResponse)) (msg : ModelResponse).

(** ** Channels *)

Lemma channel_publish session msg ch session' :
  channel (publish session msg ch) session' =
    if decide (session = session') then channel ch session ++ [msg]
    else channel ch session'.
Proof.
  unfold publish, channel at 1. rewrite lookup_insert.
  by case_decide.
Qed.

Lemma channel_publish_list msg ch (l : list string) session :
  NoDup l →
  channel (foldr (λ s acc, publish s msg acc) ch l) session =
    channel ch session ++ (if decide (session ∈ l) then [msg] else []).
Proof.
  intros Hl. induction Hl as [|s l Hs Hl IH]; simpl.
  - by rewrite app_nil_r.
  - rewrite channel_publish. destruct (decide (s = session)) as [->|Hne].
    + rewrite IH. rewrite decide_False by done.
      rewrite decide_True by (apply elem_of_cons; by left). by rewrite app_nil_r.
    + rewrite IH. destruct (decide (session ∈ l)).
      * by rewrite decide_True by (apply elem_of_cons; by right).
      * rewrite decide_False; [done|]. by intros [?|?]%elem_of_cons.
Qed.

(** Fanning a message out to a waiter set appends it once to the channel of
    each waiter and leaves the other channels alone. *)
Lemma channel_publish_all msg ch (waiters : gset string) session :
  channel (set_fold (λ s acc, publish s msg acc) ch waiters) session =
    channel ch session ++ (if decide (session ∈ waiters) then [msg] else []).
Proof.
  unfold set_fold. simpl. rewrite channel_publish_list by apply NoDup_elements.
  destruct (decide (session ∈ waiters)).
  - by rewrite decide_True by by apply elem_of_elements.
  - rewrite decide_False; [done|]. by rewrite elem_of_elements.
Qed.

(** ** What one step changes *)

Lemma ledger_submit session key now op :
  ledger (submit session key now op) = ledger op.
Proof.
  unfold submit. destruct (in_flight op !! key); [done|].
  destruct (in_cooldown op key now); [|done].
  by destruct (retained op !! key).
Qed.

Lemma retained_submit session key now op :
  retained (submit session key now op) = retained op.
Proof.
  unfold submit. destruct (in_flight op !! key); [done|].
  destruct (in_cooldown op key now); [|done].
  by destruct (retained op !! key).
Qed.

(** Step 1: the key is executing, the submitter joins the waiters. *)
Lemma submit_coalesce session key now op waiters :
  in_flight op !! key = Some waiters →
  submit session key now op =
    set_in_flight (λ r, <[key := {[session]} ∪ waiters]> r) op.
Proof. intros Hf. unfold submit. by rewrite Hf. Qed.

(** Step 2: the key is idle and inside its cooldown window. *)
Lemma submit_skip session key now op :
  in_flight op !! key = None →
  in_cooldown op key now = true →
  submit session key now op =
    match retained op !! key with
    | Some msg => set_channels (publish session msg) op
    | None => op
    end.
Proof. intros Hf Hc. unfold submit. by rewrite Hf, Hc. Qed.

(** Step 3: the key is idle and outside its cooldown window. *)
Lemma submit_start session key now op :
  in_flight op !! key = None →
  in_cooldown op key now = false →
  submit session key now op =
    set_started (λ l, l ++ [(session, key)])
      (set_in_flight (λ r, <[key := {[session]}]> r) op).
Proof. intros Hf Hc. unfold submit. by rewrite Hf, Hc. Qed.

Lemma complete_running key o now op waiters :
  in_flight op !! key = Some waiters →
  complete key o now op =
    set_in_flight (delete key)
      (set_retained
         (λ c, if retain_results op then <[key := message_of key o]> c else c)
        (set_channels
           (λ ch, set_fold (λ s acc, publish s (message_of key o) acc) ch waiters)
           (set_ledger (λ l, <[key := now]> l) op))).
Proof. intros Hf. unfold complete. by rewrite Hf. Qed.

Lemma complete_idle key o now op :
  in_flight op !! key = None → complete key o now op = op.
Proof. intros Hf. unfold complete. by rewrite Hf. Qed.

Lemma identifier_message_of key o : identifier (message_of key o) = key.
Proof. by destruct o. Qed.

(** ** Counting executions and deliveries *)

Lemma executions_started key op (l : list (string * string)) :
  executions key (set_started (λ l0, l0 ++ l) op) =
    executions key op + length (filter (λ sk, sk.2 = key) l).
Proof. unfold executions. simpl. by rewrite filter_app, length_app. Qed.

Lemma delivered_publish key session session' msg op :
  delivered key session (set_channels (publish session' msg) op) =
    delivered key session op +
    (if decide (session' = session ∧ identifier msg = key) then 1 else 0).
Proof.
  unfold delivered. simpl. rewrite channel_publish.
  destruct (decide (session' = session)) as [->|Hne].
  - rewrite filter_app, length_app.
    destruct (decide (identifier msg = key)) as [Hk|Hk].
    + rewrite filter_cons_True by done. by rewrite decide_True by done.
    + rewrite filter_cons_False by done. rewrite decide_False; [done|]. by intros [].
  - rewrite decide_False; [lia|]. by intros [].
Qed.

Lemma delivered_publish_all key session msg (waiters : gset string) op :
  delivered key session
    (set_channels (λ ch, set_fold (λ s acc, publish s msg acc) ch waiters) op) =
    delivered key session op +
    (if decide (session ∈ waiters ∧ identifier msg = key) then 1 else 0).
Proof.
  unfold delivered. simpl. rewrite channel_publish_all, filter_app, length_app.
  destruct (decide (session ∈ waiters)) as [Hin|Hin].
  - destruct (decide (identifier msg = key)) as [Hk|Hk].
    + rewrite filter_cons_True by done. by rewrite decide_True by done.
    + rewrite filter_cons_False by done. rewrite decide_False; [done|]. by intros [].
  - rewrite decide_False; [done|]. by intros [].
Qed.

(** ** The in-flight window of a key *)

(** One step that is not the completion of [key], taken while [key] is
    executing: the key stays registered, its waiters grow by the submitter
    if the step is a submission of [key], no execution of [key] starts and
    no message for [key] is queued. *)
Lemma step_in_window key e op waiters :
  retained_wf op →
  in_flight op !! key = Some waiters →
  (∀ o now, e ≠ Complete key o now) →
  retained_wf (step op e) ∧
  in_flight (step op e) !! key = Some (waiters ∪ submitters key [e]) ∧
  executions key (step op e) = executions key op ∧
  (∀ session, delivered key session (step op e) = delivered key session op).
Proof.
  intros Hwf Hf Hne. destruct e as [s k now|k o now]; simpl.
  - destruct (decide (k = key)) as [->|Hk].
    + rewrite (submit_coalesce _ _ _ _ _ Hf). simpl.
      rewrite lookup_insert_eq. split_and!; [done| |done|done].
      f_equal. set_solver.
    + assert (waiters ∪ ∅ = waiters) as -> by set_solver.
      unfold submit. destruct (in_flight op !! k) as [ws|] eqn:Hfk.
      { simpl. by rewrite lookup_insert_ne. }
      destruct (in_cooldown op k now).
      * destruct (retained op !! k) as [msg|] eqn:Hr; [|done].
        split_and!; [done|done|done|]. intros session.
        rewrite delivered_publish, decide_False; [lia|].
        intros [_ Hid]. by rewrite (Hwf _ _ Hr) in Hid.
      * split_and!; [done| |..|done].
        -- simpl. by rewrite lookup_insert_ne.
        -- rewrite executions_started. simpl.
           rewrite filter_cons_False by done. simpl. unfold executions. simpl. lia.
  - assert (k ≠ key) as Hk by (intros ->; by eapply Hne).
    assert (waiters ∪ ∅ = waiters) as -> by set_solver.
    destruct (in_flight op !! k) as [ws|] eqn:Hfk.
    + rewrite (complete_running _ _ _ _ _ Hfk). split_and!.
      * intros k' m. simpl. destruct (retain_results op); [|apply Hwf].
        rewrite lookup_insert. case_decide as Hkk.
        -- intros [= <-]. subst k'. apply identifier_message_of.
        -- apply Hwf.
      * simpl. by rewrite lookup_delete_ne.
      * done.
      * intros session.
        change (delivered key session (set_in_flight ?f (set_retained ?g ?op')))
          with (delivered key session op').
        rewrite delivered_publish_all, decide_False.
        -- unfold delivered. simpl. lia.
        -- rewrite identifier_message_of. by intros [].
    + by rewrite (complete_idle _ _ _ _ Hfk).
Qed.

Lemma run_events_in_window key es : ∀ op waiters,
  retained_wf op →
  in_flight op !! key = Some waiters →
  no_completion key es →
  retained_wf (run_events es op) ∧
  in_flight (run_events es op) !! key = Some (waiters ∪ submitters key es) ∧
  executions key (run_events es op) = executions key op ∧
  (∀ session, delivered key session (run_events es op) = delivered key session op).
Proof.
  induction es as [|e es IH]; intros op waiters Hwf Hf Hnc.
  - unfold run_events. simpl. split_and!; try done.
    rewrite Hf. f_equal. set_solver.
  - assert (∀ o now, e ≠ Complete key o now) as Hne.
    { intros o now ->. eapply Hnc; [|done]. apply elem_of_cons. by left. }
    destruct (step_in_window key e op waiters Hwf Hf Hne) as (Hwf1 & Hf1 & He1 & Hd1).
    assert (no_completion key es) as Hnc'.
    { intros k o now Hin. eapply Hnc. apply elem_of_cons. by right. }
    destruct (IH (step op e) _ Hwf1 Hf1 Hnc') as (Hwf2 & Hf2 & He2 & Hd2).
    unfold run_events in *. simpl. split_and!.
    + done.
    + rewrite Hf2. f_equal. destruct e as [s k now|k o now]; simpl.
      * destruct (decide (k = key)); set_solver.
      * set_solver.
    + by rewrite He2.
    + intros session. by rewrite Hd2.
Qed.

(** [retained_wf] is an invariant of the broker. *)
Lemma retained_wf_new interval retain :
  retained_wf (new_operator interval retain).
Proof. intros key m. simpl. by rewrite lookup_empty. Qed.

Lemma retained_wf_step op e : retained_wf op → retained_wf (step op e).
Proof.
  intros Hwf. destruct e as [s k now|k o now]; simpl.
  - intros key m. rewrite retained_submit. apply Hwf.
  - unfold complete. destruct (in_flight op !! k); [|done].
    intros key m. simpl. destruct (retain_results op); [|apply Hwf].
    rewrite lookup_insert. case_decide.
    + intros [= <-]. subst. apply identifier_message_of.
    + apply Hwf.
Qed.

Lemma retained_wf_run_events es op : retained_wf op → retained_wf (run_events es op).
Proof.
  revert op. induction es as [|e es IH]; intros op Hwf; [done|].
  apply IH. by apply retained_wf_step.
Qed.

(** ** Coalescing *)

(** C1. Take a key that is idle and outside its cooldown window.  A
    submission starts its execution; until that execution ends, any number of
    sessions submit the same key, interleaved with anything the broker does
    for other keys.  Over the whole window exactly one execution of [run] is
    started for the key, every session that submitted it has exactly one more
    message for the key in its channel (the result of that execution, queued
    last), no other session has one more, and the key is idle again. *)
Theorem coalescing_one_execution op key s0 t0 es o t :
  retained_wf op →
  in_flight op !! key = None →
  in_cooldown op key t0 = false →
  no_completion key es →
  executions key (run_events (window s0 key t0 es o t) op) = S (executions key op) ∧
  (∀ session,
     delivered key session (run_events (window s0 key t0 es o t) op) =
       delivered key session op +
       (if decide (session ∈ {[s0]} ∪ submitters key es) then 1 else 0)) ∧
  (∀ session, session ∈ {[s0]} ∪ submitters key es →
     last (channel (channels (run_events (window s0 key t0 es o t) op)) session) =
       Some (message_of key o)) ∧
  in_flight (run_events (window s0 key t0 es o t) op) !! key = None.
Proof.
  intros Hwf Hidle Hcool Hnc.
  unfold window, run_events. simpl. rewrite foldl_app. simpl.
  rewrite (submit_start _ _ _ _ Hidle Hcool).
  set (op1 := set_started _ _).
  assert (retained_wf op1) as Hwf1 by done.
  assert (in_flight op1 !! key = Some {[s0]}) as Hf1.
  { simpl. by rewrite lookup_insert_eq. }
  destruct (run_events_in_window key es op1 _ Hwf1 Hf1 Hnc) as (Hwf2 & Hf2 & He2 & Hd2).
  fold (run_events es op1) in *. set (op2 := run_events es op1) in *.
  rewrite (complete_running _ _ _ _ _ Hf2).
  split_and!.
  - change (executions key op2 = S (executions key op)). rewrite He2.
    unfold op1. rewrite executions_started. simpl.
    rewrite filter_cons_True by done. simpl. unfold executions. simpl. lia.
  - intros session.
    change (delivered key session (set_in_flight ?f (set_retained ?g ?op')))
      with (delivered key session op').
    rewrite delivered_publish_all.
    change (delivered key session (set_ledger ?f ?op')) with (delivered key session op').
    rewrite Hd2. change (delivered key session op1) with (delivered key session op).
    f_equal. rewrite identifier_message_of.
    destruct (decide (session ∈ {[s0]} ∪ submitters key es)).
    + by rewrite decide_True by done.
    + rewrite decide_False; [done|]. by intros [].
  - intros session Hin. simpl. rewrite channel_publish_all.
    rewrite decide_True by done. by rewrite last_snoc.
  - simpl. by rewrite lookup_delete_eq.
Qed.

(** ** Throttling *)

(** C2. A submission of a key whose ThrottleEntry is younger than
    [interval] starts no execution of [run] and leaves the ledger alone.  If
    the key is executing the submitter joins its waiters; if it is idle the
    registry is unchanged.  At most one message is queued, the retained one
    for the key, and only for the submitting session. *)
Theorem submit_in_cooldown session key now lastExecutedAt op :
  ledger op !! key = Some lastExecutedAt →
  (now - lastExecutedAt < interval op)%Z →
  started (submit session key now op) = started op ∧
  ledger (submit session key now op) = ledger op ∧
  (in_flight op !! key = None →
     in_flight (submit session key now op) = in_flight op) ∧
  (channels (submit session key now op) = channels op ∨
   ∃ msg, retained op !! key = Some msg ∧
          channels (submit session key now op) = publish session msg (channels op)).
Proof.
  intros Hl Hlt.
  assert (in_cooldown op key now = true) as Hc.
  { unfold in_cooldown. rewrite Hl. by apply Z.ltb_lt. }
  split_and!.
  - unfold submit. rewrite Hc. destruct (in_flight op !! key); [done|].
    by destruct (retained op !! key).
  - apply ledger_submit.
  - intros Hidle. rewrite (submit_skip _ _ _ _ Hidle Hc).
    by destruct (retained op !! key).
  - unfold submit. rewrite Hc. destruct (in_flight op !! key); [by left|].
    destruct (retained op !! key) as [msg|]; [|by left].
    right. by exists msg.
Qed.

End Broker.

(** * Executions of [operate] under the broker *)

Section Execution.
Context {runtime : Externals}.

Lemma execute_unfold session key w :
  execute session key w =
    (Ok (),
     set_operator (complete key (outcome_of (operate session key w).1)
                            (clock (operate session key w).2))
                  (operate session key w).2).
Proof. unfold execute. by destruct (operate session key w). Qed.

(** [operate] leaves the broker's registries, channels and clock alone. *)
Lemma operate_keeps_broker session args w :
  in_flight (operator (operate session args w).2) = in_flight (operator w) ∧
  channels (operator (operate session args w).2) = channels (operator w) ∧
  ledger (operator (operate session args w).2) = ledger (operator w) ∧
  clock (operate session args w).2 = clock w.
Proof.
  split_and!.
  - by apply (keeps_operate (λ w, in_flight (operator w))).
  - by apply (keeps_operate (λ w, channels (operator w))).
  - by apply (keeps_operate (λ w, ledger (operator w))).
  - by apply (keeps_operate clock).
Qed.

(** A failure [operate] returns carries the key and no data. *)
Lemma operate_failure session args w m :
  (operate session args w).1 = Ok m → status m = failure →
  m = {| identifier := args; status := failure; data := None |}.
Proof.
  rewrite operate_unfold.
  destruct (lookup_ident (beatmaps w) args) as [b|].
  - simpl. by intros [= <-].
  - destruct (request_api args (set_db_sessions S w)) as [[[b|]|e] w'];
      simpl; [by intros [= <-]|by intros [= <-]|done].
Qed.

(** The response [operate] returns carries the key it was called with, so
    the broker's message is that response. *)
Lemma message_of_operate session args w m :
  (operate session args w).1 = Ok m → message_of args (Returned m) = m.
Proof.
  rewrite operate_unfold.
  destruct (lookup_ident (beatmaps w) args) as [b|].
  - simpl. by intros [= <-].
  - destruct (request_api args (set_db_sessions S w)) as [[[b|]|e] w'];
      simpl; [by intros [= <-]|by intros [= <-]|done].
Qed.

(** When both lookups find nothing [operate] returns a failure; it does not
    raise. *)
Lemma operate_not_found session args w :
  lookup_ident (beatmaps w) args = None →
  (request_api args (set_db_sessions S w)).1 = Ok None →
  (operate session args w).1 =
    Ok {| identifier := args; status := failure; data := None |}.
Proof.
  intros Hl Hr. rewrite operate_unfold, Hl.
  destruct (request_api args (set_db_sessions S w)) as [[[b|]|e] w']; by simplify_eq/=.
Qed.

(** Every waiter of the key gets the message of the execution, whatever its
    outcome. *)
Lemma execute_delivers session key w waiters s :
  in_flight (operator w) !! key = Some waiters →
  s ∈ waiters →
  channel (channels (operator (execute session key w).2)) s =
    channel (channels (operator w)) s ++
    [message_of key (outcome_of (operate session key w).1)].
Proof.
  intros Hf Hs. rewrite execute_unfold. simpl.
  pose proof (operate_keeps_broker session key w) as (Hfl & Hch & _ & _).
  rewrite <- Hfl in Hf. rewrite (complete_running _ _ _ _ _ Hf). simpl.
  rewrite channel_publish_all, decide_True by done. by rewrite Hch.
Qed.

(** C4. An execution of [operate] that fails, because both lookups found
    nothing (then [operate] returns a failure response) or because it
    raised, ends without a fault for the broker's callers: the execution
    step returns, and every waiter of the key finds a Failure message for
    the key appended to its channel, the place where the message of a
    successful execution is appended. *)
Theorem failure_is_delivered session key w waiters s :
  in_flight (operator w) !! key = Some waiters →
  s ∈ waiters →
  fails (operate session key w).1 →
  (execute session key w).1 = Ok () ∧
  channel (channels (operator (execute session key w).2)) s =
    channel (channels (operator w)) s ++
    [{| identifier := key; status := failure; data := None |}] ∧
  (lookup_ident (beatmaps w) key = None →
   (request_api key (set_db_sessions S w)).1 = Ok None →
   (operate session key w).1 =
     Ok {| identifier := key; status := failure; data := None |}).
Proof.
  intros Hf Hs Hfail. split_and!.
  - by rewrite execute_unfold.
  - rewrite (execute_delivers _ _ _ _ _ Hf Hs). f_equal. f_equal.
    destruct (operate session key w).1 as [m|e] eqn:Hr; simpl in *; [|done].
    rewrite (operate_failure _ _ _ _ Hr Hfail). done.
  - apply operate_not_found.
Qed.

(** C3. The ledger entry of a key is written by the end of an execution
    and by nothing else.  A submission, whether it is coalesced, skipped or
    starts an execution, leaves the ledger as it is.  The end of an
    execution sets [lastExecutedAt] to the time it ended, whatever the
    outcome: also when the body raised or returned a failure.  After that, a
    submission of the key less than [interval] later starts no execution.
    In particular an execution of [operate] for a registered key writes the
    entry whether [operate] returns a success, returns a failure or raises. *)
Theorem ledger_written_on_completion session key o now now' op w :
  ledger (submit session key now op) = ledger op ∧
  (in_flight op !! key = None → ledger (complete key o now op) = ledger op) ∧
  (is_Some (in_flight op !! key) →
     ledger (complete key o now op) = <[key := now]> (ledger op)) ∧
  (is_Some (in_flight op !! key) → (now' - now < interval op)%Z →
     started (submit session key now' (complete key o now op)) =
       started (complete key o now op)) ∧
  (is_Some (in_flight (operator w) !! key) →
     ledger (operator (execute session key w).2) =
       <[key := clock w]> (ledger (operator w))).
Proof.
  split_and!.
  - apply ledger_submit.
  - intros Hidle. by rewrite complete_idle.
  - intros [waiters Hf]. by rewrite (complete_running _ _ _ _ _ Hf).
  - intros [waiters Hf] Hlt. rewrite (complete_running _ _ _ _ _ Hf).
    unfold submit. simpl. rewrite lookup_delete_eq.
    unfold in_cooldown. simpl. rewrite lookup_insert_eq.
    apply Z.ltb_lt in Hlt. rewrite Hlt.
    by destruct ((if retain_results op then _ else _) !! key).
  - intros [waiters Hf]. rewrite execute_unfold. simpl.
    pose proof (operate_keeps_broker session key w) as (Hfl & _ & Hl & Hc).
    rewrite <- Hfl in Hf. rewrite (complete_running _ _ _ _ _ Hf). simpl.
    by rewrite Hl, Hc.
Qed.

End Execution.

(** * The code on concrete inputs *)

(** [stream_beatmap] at work: two identifiers, two submissions, in order. *)
Example stream_beatmap_two_idents :
  submissions (operator
    (stream_beatmap {| connection := 1 |} ["75"; sample_md5] (User.Row 7 "peppy") empty_world).2) =
    [("7", "75"); ("7", sample_md5)].
Proof. vm_compute. reflexivity. Qed.

(** [submit_raw] with an evaluator that accepts, and with one that rejects. *)
Example submit_raw_accepted :
  submit_raw (runtime := sample_runtime (answer 404 (VList [])) true)
    sample_score {| session_no := 0 |} "acc >= 95" empty_world =
    (Ok (Some sample_score), set_scores (λ _, [sample_score]) empty_world).
Proof. reflexivity. Qed.

Example submit_raw_rejected :
  submit_raw (runtime := sample_runtime (answer 404 (VList [])) false)
    sample_score {| session_no := 0 |} "acc >= 95" empty_world =
    (Ok None, empty_world).
Proof. reflexivity. Qed.

(** The spec's scenario with interval 60: A submits K1 at 0, B joins at 1,
    the execution ends at 2, C submits at 10.  One execution; A and B hold
    the result once, C holds the retained copy; the ledger says 2. *)
Example scenario_K1 :
  let op := submit "C" "K1" 10
              (run_events (window "A" "K1" 0 [Submit "B" "K1" 1]
                             (Returned {| identifier := "K1"; status := success;
                                          data := None |}) 2)
                          (new_operator 60 true)) in
  started op = [("A", "K1")] ∧
  delivered "K1" "A" op = 1 ∧ delivered "K1" "B" op = 1 ∧ delivered "K1" "C" op = 1 ∧
  ledger op !! "K1" = Some 2%Z ∧
  in_flight op !! "K1" = None.
Proof. vm_compute. split_and!; reflexivity. Qed.

(** The spec's second scenario: the body finds nothing for K2 at time 0.
    The waiting session holds a Failure, the ledger has the entry, and a
    submission one second later starts nothing. *)
Example scenario_K2 :
  let w := (execute (runtime := sample_runtime (answer 404 (VList [])) true) "7" "K2"
              (set_operator (submit "7" "K2" 0) empty_world)).2 in
  channel (channels (operator w)) "7" =
    [{| identifier := "K2"; status := failure; data := None |}] ∧
  ledger (operator w) !! "K2" = Some 0%Z ∧
  started (submit "7" "K2" 1 (operator w)) = [("7", "K2")].
Proof. vm_compute. split_and!; reflexivity. Qed.

(** A numeric identifier that the provider knows: the row is saved and
    [operate] answers with a success that carries it. *)
Example operate_numeric_ident_found :
  ∃ b, (operate (runtime := sample_runtime (answer 200 found) true) "7" "75" empty_world).1 =
         Ok {| identifier := "75"; status := success; data := Some b |} ∧
       beatmaps (operate (runtime := sample_runtime (answer 200 found) true)
                   "7" "75" empty_world).2 = [b].
Proof. eexists. vm_compute. split; reflexivity. Qed.

(** An MD5 identifier, unknown locally, that the provider knows: the row is
    saved, then the lookup of [params['id']] raises; [operate] returns no
    response. *)
Example operate_md5_ident_raises :
  lookup_ident (Externals := sample_runtime (answer 200 found) true)
    (beatmaps empty_world) sample_md5 = None ∧
  (operate (runtime := sample_runtime (answer 200 found) true) "7" sample_md5 empty_world).1 =
    Raise (KeyError "id") ∧
  length (beatmaps (operate (runtime := sample_runtime (answer 200 found) true)
                      "7" sample_md5 empty_world).2) = 1.
Proof. vm_compute. split_and!; reflexivity. Qed.

(** C9, as stated, fails: for an MD5 identifier and an answer with status
    200 and a non-empty body whose entry has an empty [last_update],
    [request_api] raises the [ValueError] of [int('')] inside
    [_save_response]; the [KeyError] of [params['id']] is never reached. *)
Example request_api_md5_ident_save_raises :
  MD5_PATTERN_match (Externals := sample_runtime (answer 200 malformed) true) sample_md5 = true ∧
  isnumeric (Externals := sample_runtime (answer 200 malformed) true) sample_md5 = false ∧
  http_client_get (Externals := sample_runtime (answer 200 malformed) true)
    "https://osu.direct/api/get_beatmaps" {[ "md5" := VStr sample_md5 ]} =
    answer 200 malformed ∧
  truthy malformed = true ∧
  (request_api (runtime := sample_runtime (answer 200 malformed) true) sample_md5 empty_world).1 =
    Raise (ValueError "invalid literal for int() with base 10").
Proof. vm_compute. split_and!; reflexivity. Qed.

(** C10, as stated, fails: the provider answers 500 with a body that
    [response.json()] cannot decode.  The status is not 200, and [request_api]
    does not return [None]: it raises the [ValueError] of the decoder. *)
Example request_api_undecodable_answer_raises :
  http_client_get (Externals := sample_runtime undecodable true)
    "https://osu.direct/api/get_beatmaps" {[ "id" := VInt 75 ]} =
    Ok {| http_status := 500; json := Raise (ValueError "Expecting value") |} ∧
  http_status {| http_status := 500; json := Raise (ValueError "Expecting value") |}
    ≠ 200%Z ∧
  request_api (runtime := sample_runtime undecodable true) "75" empty_world =
    (Raise (ValueError "Expecting value"), empty_world).
Proof. split_and!; [reflexivity|by vm_compute|vm_compute; reflexivity]. Qed.

(** ** The theorems at concrete inputs *)

Lemma request_api_md5_ident_witness :
  (request_api (runtime := sample_runtime (answer 200 malformed) true)
     sample_md5 empty_world).1 =
    match (_save_response (runtime := sample_runtime (answer 200 malformed) true)
             {| session_no := 0 |} malformed empty_world).1 with
    | Ok _ => Raise (KeyError "id")
    | Raise e => Raise e
    end ∧
  (∃ e, (request_api (runtime := sample_runtime (answer 200 malformed) true)
           sample_md5 empty_world).1 = Raise e) ∧
  (∀ b, (request_api (runtime := sample_runtime (answer 200 malformed) true)
           sample_md5 empty_world).1 ≠ Ok b).
Proof.
  apply (@request_api_md5_ident (sample_runtime (answer 200 malformed) true) sample_md5
           {| http_status := 200; json := Ok malformed |} malformed
           {| session_no := 0 |} empty_world empty_world);
    vm_compute; reflexivity.
Defined.

Lemma request_api_failed_lookup_witness :
  request_api (runtime := sample_runtime (answer 404 (VList [])) true) "75" empty_world =
    (Ok None,
     after_debug_log (runtime := sample_runtime (answer 404 (VList [])) true)
       {[ "id" := VInt 75 ]} empty_world) ∧
  beatmaps (request_api (runtime := sample_runtime (answer 404 (VList [])) true)
              "75" empty_world).2 = [] ∧
  db_sessions (request_api (runtime := sample_runtime (answer 404 (VList [])) true)
                 "75" empty_world).2 = 0 ∧
  scores (request_api (runtime := sample_runtime (answer 404 (VList [])) true)
            "75" empty_world).2 = [].
Proof.
  apply (@request_api_failed_lookup (sample_runtime (answer 404 (VList [])) true) "75"
           {[ "id" := VInt 75 ]} {| http_status := 404; json := Ok (VList []) |}
           empty_world).
  - vm_compute. reflexivity.
  - vm_compute. reflexivity.
  - left. simpl. lia.
Defined.

Lemma failure_is_delivered_witness :
  (execute (runtime := sample_runtime (answer 404 (VList [])) true)
     "7" sample_md5 busy_world).1 = Ok () ∧
  channel (channels (operator
    (execute (runtime := sample_runtime (answer 404 (VList [])) true)
       "7" sample_md5 busy_world).2)) "7" =
    channel (channels (operator busy_world)) "7" ++
    [{| identifier := sample_md5; status := failure; data := None |}] ∧
  (lookup_ident (Externals := sample_runtime (answer 404 (VList [])) true)
     (beatmaps busy_world) sample_md5 = None →
   (request_api (runtime := sample_runtime (answer 404 (VList [])) true)
      sample_md5 (set_db_sessions S busy_world)).1 = Ok None →
   (operate (runtime := sample_runtime (answer 404 (VList [])) true)
      "7" sample_md5 busy_world).1 =
     Ok {| identifier := sample_md5; status := failure; data := None |}).
Proof.
  apply (@failure_is_delivered (sample_runtime (answer 404 (VList [])) true)
           "7" sample_md5 busy_world {[ "7" ]} "7").
  - vm_compute. reflexivity.
  - apply elem_of_singleton. reflexivity.
  - vm_compute. reflexivity.
Defined.

Lemma coalescing_one_execution_witness :
  executions "K1"
    (run_events (window "A" "K1" 0 [Submit "B" "K1" 1; Submit "B" "K2" 1]
                   (Raised (KeyError "id")) 2) (new_operator 60 true)) =
    S (executions "K1" (new_operator 60 true)) ∧
  (∀ session,
     delivered "K1" session
       (run_events (window "A" "K1" 0 [Submit "B" "K1" 1; Submit "B" "K2" 1]
                      (Raised (KeyError "id")) 2) (new_operator 60 true)) =
       delivered "K1" session (new_operator 60 true) +
       (if decide (session ∈ ({[ "A" ]} : gset string) ∪
                     submitters "K1" [Submit "B" "K1" 1; Submit "B" "K2" 1])
        then 1 else 0)) ∧
  (∀ session,
     session ∈ ({[ "A" ]} : gset string) ∪
       submitters "K1" [Submit "B" "K1" 1; Submit "B" "K2" 1] →
     last (channel (channels
       (run_events (window "A" "K1" 0 [Submit "B" "K1" 1; Submit "B" "K2" 1]
                      (Raised (KeyError "id")) 2) (new_operator 60 true))) session) =
       Some (message_of "K1" (Raised (KeyError "id")))) ∧
  in_flight (run_events (window "A" "K1" 0 [Submit "B" "K1" 1; Submit "B" "K2" 1]
                           (Raised (KeyError "id")) 2) (new_operator 60 true)) !! "K1" = None.
Proof.
  apply (coalescing_one_execution (new_operator 60 true) "K1" "A" 0
           [Submit "B" "K1" 1; Submit "B" "K2" 1] (Raised (KeyError "id")) 2).
  - apply retained_wf_new.
  - reflexivity.
  - reflexivity.
  - intros key' o now Hin.
    apply elem_of_cons in Hin as [Hin|Hin]; [discriminate|].
    apply elem_of_cons in Hin as [Hin|Hin]; [discriminate|].
    by apply elem_of_nil in Hin.
Defined.

Lemma submit_in_cooldown_witness :
  started (submit "C" "K1" 10
             (run_events (window "A" "K1" 0 [] (Raised (KeyError "id")) 2)
                (new_operator 60 true))) =
    started (run_events (window "A" "K1" 0 [] (Raised (KeyError "id")) 2)
               (new_operator 60 true)) ∧
  ledger (submit "C" "K1" 10
            (run_events (window "A" "K1" 0 [] (Raised (KeyError "id")) 2)
               (new_operator 60 true))) =
    ledger (run_events (window "A" "K1" 0 [] (Raised (KeyError "id")) 2)
              (new_operator 60 true)) ∧
  (in_flight (run_events (window "A" "K1" 0 [] (Raised (KeyError "id")) 2)
                (new_operator 60 true)) !! "K1" = None →
   in_flight (submit "C" "K1" 10
                (run_events (window "A" "K1" 0 [] (Raised (KeyError "id")) 2)
                   (new_operator 60 true))) =
     in_flight (run_events (window "A" "K1" 0 [] (Raised (KeyError "id")) 2)
                  (new_operator 60 true))) ∧
  (channels (submit "C" "K1" 10
               (run_events (window "A" "K1" 0 [] (Raised (KeyError "id")) 2)
                  (new_operator 60 true))) =
     channels (run_events (window "A" "K1" 0 [] (Raised (KeyError "id")) 2)
                 (new_operator 60 true)) ∨
   ∃ msg,
     retained (run_events (window "A" "K1" 0 [] (Raised (KeyError "id")) 2)
                 (new_operator 60 true)) !! "K1" = Some msg ∧
     channels (submit "C" "K1" 10
                 (run_events (window "A" "K1" 0 [] (Raised (KeyError "id")) 2)
                    (new_operator 60 true))) =
       publish "C" msg
         (channels (run_events (window "A" "K1" 0 [] (Raised (KeyError "id")) 2)
                      (new_operator 60 true)))).
Proof.
  apply (submit_in_cooldown "C" "K1" 10 2
           (run_events (window "A" "K1" 0 [] (Raised (KeyError "id")) 2)
              (new_operator 60 true))).
  - vm_compute. reflexivity.
  - vm_compute. reflexivity.
Defined.

Lemma save_response_rows_witness :
  ∃ entries rows,
    iterate found = Ok entries ∧
    Forall2 (λ entry b,
               beatmap_of_entry (runtime := sample_runtime (answer 200 found) true) entry
               = Ok b) entries rows ∧
    beatmaps (_save_response (runtime := sample_runtime (answer 200 found) true)
                {| session_no := 0 |} found empty_world).2 =
      beatmaps empty_world ++ rows.
Proof.
  apply (@save_response_rows (sample_runtime (answer 200 found) true)
           {| session_no := 0 |} found empty_world).
  vm_compute. reflexivity.
Defined.


Lemma request_api_zero_ident_witness :
  (request_api (runtime := sample_runtime (answer 200 found_zeros) true)
     zeros_md5 empty_world).1 =
    if MD5_PATTERN_match (Externals := sample_runtime (answer 200 found_zeros) true) zeros_md5
    then if truthy (VStr zeros_md5)
         then Ok (get_beatmap_by_md5
                    (Externals := sample_runtime (answer 200 found_zeros) true)
                    (beatmaps (request_api
                                 (runtime := sample_runtime (answer 200 found_zeros) true)
                                 zeros_md5 empty_world).2)
                    (VStr zeros_md5))
         else Ok None
    else Raise (KeyError "md5").
Proof.
  apply (@request_api_zero_ident (sample_runtime (answer 200 found_zeros) true) zeros_md5
           (<[ "id" := VInt 0 ]> {[ "md5" := VStr zeros_md5 ]})
           {| http_status := 200; json := Ok found_zeros |} found_zeros
           {| session_no := 0 |} empty_world empty_world);
    vm_compute; reflexivity.
Defined.

(** * More properties of the code *)

Section MoreProperties.
Context {runtime : Externals}.

(** ** [Beatmap._save_response] *)

Lemma getitem_Ok (d : gmap string value) k v : getitem d k = Ok v ↔ d !! k = Some v.
Proof. unfold getitem. destruct (d !! k); split; congruence. Qed.

Lemma subscript_Ok entry k v :
  subscript entry k = Ok v → ∃ d, entry = VDict d ∧ d !! k = Some v.
Proof.
  destruct entry; simpl; try done. intros Hg%getitem_Ok. eauto.
Qed.

Lemma subscript_convert_Ok {A} entry k (conv : value → result A) x :
  (subscript entry k ≫= conv) = Ok x →
  ∃ d, entry = VDict d ∧ column_from d k conv x.
Proof.
  unfold mbind, result_bind. destruct (subscript entry k) as [v|e] eqn:Hs; [|done].
  intros Hc. apply subscript_Ok in Hs as (d & -> & Hd). exists d. split; [done|].
  by exists v.
Qed.

Lemma datetime_new_valid y mo d h mi s dt :
  datetime_new y mo d h mi s = Ok dt → valid_datetime dt.
Proof.
  unfold datetime_new, in_range, valid_datetime.
  repeat match goal with
         | |- context [negb ?b] => destruct b eqn:?; simpl; [|done]
         end.
  intros [= <-]. simpl.
  repeat match goal with
         | Hb : (_ && _) = true |- _ => apply andb_true_iff in Hb as [? ?]
         end.
  lia.
Qed.

Lemma parse_last_update_valid v dt : parse_last_update v = Ok dt → valid_datetime dt.
Proof.
  unfold parse_last_update, mbind, result_bind.
  repeat match goal with
         | |- match ?r with Ok _ => _ | Raise _ => _ end = Ok _ → _ =>
             destruct r; [|done]
         end.
  apply datetime_new_valid.
Qed.

Lemma saved_date_valid entry b :
  beatmap_of_entry entry = Ok b → valid_datetime (Beatmap.server_updated_at b).
Proof.
  intros Hb. unfold beatmap_of_entry in Hb.
  repeat (unfold mbind at 1, result_bind at 1 in Hb;
          match type of Hb with
          | match ?r with Ok _ => _ | Raise _ => _ end = Ok _ =>
              let E := fresh "E" in destruct r eqn:E; [|discriminate Hb]
          end).
  unfold mret, result_ret in Hb. injection Hb as <-. simpl.
  by eapply parse_last_update_valid.
Qed.

Ltac step_bind H :=
  match type of H with
  | match ?r with Ok _ => _ | Raise _ => _ end = Ok _ =>
      let E := fresh "E" in destruct r eqn:E; [|discriminate H]
  end.

(** X4. A row that [_save_response] builds takes each column from one key of
    the entry: the entry is a mapping that has all eighteen keys, [file_md5],
    [beatmap_id], [beatmapset_id], [approved] and the four name fields are
    stored as they come, the three counters through [int], the six numbers
    through [float] (a null [bpm] as [float(0)]), and [last_update] as a
    valid date and time. *)
Theorem beatmap_of_entry_columns entry b :
  beatmap_of_entry entry = Ok b →
  ∃ d, entry = VDict d ∧
    d !! "file_md5" = Some (Beatmap.md5 b) ∧
    d !! "beatmap_id" = Some (Beatmap.id b) ∧
    d !! "beatmapset_id" = Some (Beatmap.set_id b) ∧
    d !! "approved" = Some (Beatmap.ranked_status b) ∧
    d !! "artist" = Some (Beatmap.artist b) ∧
    d !! "title" = Some (Beatmap.title b) ∧
    d !! "version" = Some (Beatmap.version b) ∧
    d !! "creator" = Some (Beatmap.creator b) ∧
    beatmap_filename entry = Ok (Beatmap.filename b) ∧
    column_from d "total_length" int_ (Beatmap.total_length b) ∧
    column_from d "max_combo" int_ (Beatmap.max_combo b) ∧
    column_from d "mode" int_ (Beatmap.mode b) ∧
    column_from d "bpm" (λ v, float_ (if v is VNone then VInt 0 else v)) (Beatmap.bpm b) ∧
    column_from d "diff_size" float_ (Beatmap.cs b) ∧
    column_from d "diff_overall" float_ (Beatmap.od b) ∧
    column_from d "diff_approach" float_ (Beatmap.ar b) ∧
    column_from d "diff_drain" float_ (Beatmap.hp b) ∧
    column_from d "difficultyrating" float_ (Beatmap.star_rating b) ∧
    column_from d "last_update" parse_last_update (Beatmap.server_updated_at b) ∧
    valid_datetime (Beatmap.server_updated_at b).
Proof.
  intros Hb. unfold beatmap_of_entry in Hb.
  unfold mbind at 1, result_bind at 1 in Hb. step_bind Hb.
  destruct entry as [| | | | | |d]; try discriminate E.
  exists d. split; [done|]. simpl subscript in Hb.
  repeat (unfold mbind at 1, result_bind at 1 in Hb; step_bind Hb).
  unfold mret, result_ret in Hb. injection Hb as <-. simpl.
  repeat match goal with
         | Hg : getitem d _ = Ok _ |- _ => apply getitem_Ok in Hg
         | Hg : (getitem d ?k ≫= ?conv) = Ok ?x |- _ =>
             apply (subscript_convert_Ok (VDict d) k conv x) in Hg
               as (? & [= <-] & Hg)
         end.
  match goal with
  | Hv : d !! "bpm" = Some ?v,
    Hm : match ?v with VNone => _ | _ => _ end = Ok ?x |- _ =>
      assert (column_from d "bpm" (λ v, float_ (if v is VNone then VInt 0 else v)) x)
        by (exists v; split; [done|];
            unfold mbind, result_bind in Hm; destruct v; exact Hm)
  end.
  split_and!; try done.
  - match goal with Hv : d !! "last_update" = Some ?v |- _ => by exists v end.
  - by eapply parse_last_update_valid.
Qed.

Lemma save_response_unfold session response_data w :
  _save_response session response_data w =
    match iterate response_data with
    | Ok entries => for_each entries (save_entry session) w
    | Raise e => (Raise e, w)
    end.
Proof.
  unfold _save_response. rewrite M_bind_unfold. simpl.
  by destruct (iterate response_data).
Qed.

Lemma save_entry_unfold session entry w :
  save_entry session entry w =
    match beatmap_of_entry entry with
    | Ok b => (Ok (), set_beatmaps (λ t, t ++ [b]) w)
    | Raise e => (Raise e, w)
    end.
Proof.
  unfold save_entry. rewrite M_bind_unfold. simpl.
  by destruct (beatmap_of_entry entry).
Qed.

(** The loop saves the entries one by one until one of them fails. *)
Lemma for_each_save_prefix session pre rows bad post e : ∀ w,
  Forall2 (λ entry b, beatmap_of_entry entry = Ok b) pre rows →
  beatmap_of_entry bad = Raise e →
  (for_each (pre ++ bad :: post) (save_entry session) w).1 = Raise e ∧
  beatmaps (for_each (pre ++ bad :: post) (save_entry session) w).2 =
    beatmaps w ++ rows.
Proof.
  intros w Hpre Hbad. revert w.
  induction Hpre as [|entry b pre rows Hb Hpre IH]; intros w; simpl.
  - rewrite M_bind_unfold, save_entry_unfold, Hbad. simpl. by rewrite app_nil_r.
  - rewrite M_bind_unfold, save_entry_unfold, Hb.
    destruct (IH (set_beatmaps (λ t, t ++ [b]) w)) as [-> ->].
    split; [done|]. simpl. by rewrite <- app_assoc.
Qed.

(** X5. [_save_response] does not undo what it saved: when an entry of the
    response cannot be turned into a row, the exception of that entry is
    raised, the entries before it are rows of the table, and no later entry
    is saved. *)
Theorem save_response_stops_at_bad_entry session response_data pre rows bad post e w :
  iterate response_data = Ok (pre ++ bad :: post) →
  Forall2 (λ entry b, beatmap_of_entry entry = Ok b) pre rows →
  beatmap_of_entry bad = Raise e →
  (_save_response session response_data w).1 = Raise e ∧
  beatmaps (_save_response session response_data w).2 = beatmaps w ++ rows.
Proof.
  intros Hi Hpre Hbad. rewrite save_response_unfold, Hi.
  by apply for_each_save_prefix.
Qed.

(** Whatever the outcome, the loop appends rows built from entries. *)
Lemma for_each_save_appends session entries : ∀ w,
  ∃ rows,
    beatmaps (for_each entries (save_entry session) w).2 = beatmaps w ++ rows ∧
    Forall (λ b, ∃ entry, entry ∈ entries ∧ beatmap_of_entry entry = Ok b) rows.
Proof.
  induction entries as [|entry entries IH]; intros w; simpl.
  - exists []. by rewrite app_nil_r.
  - rewrite M_bind_unfold, save_entry_unfold.
    destruct (beatmap_of_entry entry) as [b|e] eqn:Hb.
    + destruct (IH (set_beatmaps (λ t, t ++ [b]) w)) as (rows & -> & Hrows).
      exists (b :: rows). simpl. rewrite <- app_assoc. split; [done|].
      constructor.
      * exists entry. split; [apply elem_of_cons; by left|done].
      * eapply Forall_impl; [exact Hrows|].
        intros b' (entry' & Hin & Hb'). exists entry'.
        split; [apply elem_of_cons; by right|done].
    + exists []. simpl. by rewrite app_nil_r.
Qed.

Lemma save_response_appends session response_data w :
  ∃ rows,
    beatmaps (_save_response session response_data w).2 = beatmaps w ++ rows ∧
    Forall (λ b, ∃ entry, beatmap_of_entry entry = Ok b) rows.
Proof.
  rewrite save_response_unfold. destruct (iterate response_data) as [entries|e].
  - destruct (for_each_save_appends session entries w) as (rows & Hr & Hrows).
    exists rows. split; [done|]. eapply Forall_impl; [exact Hrows|].
    intros b (entry & _ & Hb). by exists entry.
  - exists []. by rewrite app_nil_r.
Qed.

(** X6. The table keeps its dates valid: if every row has a valid
    [server_updated_at] before [_save_response], every row has one after,
    whether the call returns or raises part of the way. *)
Theorem save_response_keeps_dates_valid session response_data w :
  Forall (λ b, valid_datetime (Beatmap.server_updated_at b)) (beatmaps w) →
  Forall (λ b, valid_datetime (Beatmap.server_updated_at b))
         (beatmaps (_save_response session response_data w).2).
Proof.
  intros Hw.
  destruct (save_response_appends session response_data w) as (rows & -> & Hrows).
  apply Forall_app. split; [done|].
  eapply Forall_impl; [exact Hrows|]. intros b (entry & Hb).
  by apply (saved_date_valid entry b).
Qed.

(** X20. [_save_response] needs a list: for a body that is truthy but not a
    list (an object such as an error message, a string, a number, [True]),
    it raises [TypeError] and saves nothing. *)
Theorem save_response_needs_list session response_data w :
  truthy response_data = true →
  (∀ l, response_data ≠ VList l) →
  ∃ msg, _save_response session response_data w = (Raise (TypeError msg), w).
Proof.
  intros Ht Hl. rewrite save_response_unfold.
  assert (∀ entries c, for_each (VStr c :: entries) (save_entry session) w =
            (Raise (TypeError "format() argument after ** must be a mapping"), w))
    as Hstr.
  { intros entries c. simpl. by rewrite M_bind_unfold, save_entry_unfold. }
  destruct response_data as [|b|n|f|str|l|d]; simpl in *;
    try discriminate Ht; try (by eexists).
  - destruct str as [|c str]; [done|]. simpl. rewrite Hstr. by eexists.
  - by destruct (Hl l).
  - destruct (map_to_list d) as [|[k v] kvs]; [done|]. simpl.
    rewrite Hstr. by eexists.
Qed.

(** ** [Beatmap.request_api] *)

Lemma request_params_no_key ident params :
  request_params ident = Ok params → params !! "k" = None.
Proof.
  unfold request_params.
  destruct (isnumeric ident).
  - unfold mbind, result_bind. destruct (int_ (VStr ident)); [|done].
    intros [= <-]. rewrite lookup_insert_ne by done.
    destruct (MD5_PATTERN_match ident); [by rewrite lookup_insert_ne|done].
  - intros [= <-]. destruct (MD5_PATTERN_match ident); [by rewrite lookup_insert_ne|done].
Qed.

Lemma request_params_non_numeric ident :
  isnumeric ident = false →
  ∃ params, request_params ident = Ok params ∧ (endpoint params).2 !! "id" = None.
Proof.
  intros Hn. unfold request_params. rewrite Hn. eexists. split; [done|].
  unfold endpoint.
  destruct (negb _), (MD5_PATTERN_match ident); simpl;
    repeat first [ rewrite lookup_insert_ne by done | rewrite lookup_empty ]; done.
Qed.

(** [request_api] when the request was built: what is left depends on the
    answer. *)
Lemma request_api_built ident params w :
  request_params ident = Ok params →
  request_api ident w =
    match http_client_get (endpoint params).1 (endpoint params).2 with
    | Raise e => (Raise e, after_debug_log params w)
    | Ok response =>
        match json response with
        | Raise e => (Raise e, after_debug_log params w)
        | Ok response_data =>
            if (http_status response =? 200)%Z && truthy response_data then
              match _save_response {| session_no := db_sessions w |} response_data
                      (set_db_sessions S (after_debug_log params w)) with
              | (Raise e, w') => (Raise e, w')
              | (Ok _, w') =>
                  match (endpoint params).2 !! "id" with
                  | None => (Raise (KeyError "id"), w')
                  | Some id =>
                      if truthy id
                      then (Ok (select_beatmap_by_id (beatmaps w') id), w')
                      else match (endpoint params).2 !! "md5" with
                           | None => (Raise (KeyError "md5"), w')
                           | Some md5 =>
                               if truthy md5
                               then (Ok (get_beatmap_by_md5 (beatmaps w') md5), w')
                               else (Ok None, w')
                           end
                  end
              end
            else (Ok None, after_debug_log params w)
        end
    end.
Proof.
  intros Hp.
  destruct (http_client_get (endpoint params).1 (endpoint params).2)
    as [response|e] eqn:Hg.
  2:{ unfold request_api, after_debug_log. rewrite M_bind_unfold, Hp. simpl.
      rewrite M_bind_unfold. destruct (endpoint params) as [url params'].
      simpl in Hg. destruct config_debug; simpl; by rewrite M_bind_unfold, Hg. }
  destruct (json response) as [response_data|e] eqn:Hj.
  2:{ unfold request_api, after_debug_log. rewrite M_bind_unfold, Hp. simpl.
      rewrite M_bind_unfold. destruct (endpoint params) as [url params'].
      simpl in Hg. destruct config_debug; simpl;
        rewrite M_bind_unfold, Hg; simpl; by rewrite M_bind_unfold, Hj. }
  rewrite (request_api_decoded _ _ _ _ _ Hp Hg Hj).
  destruct (_ && _); [|done].
  rewrite M_bind_unfold. simpl. rewrite M_bind_unfold.
  assert (db_sessions (after_debug_log params w) = db_sessions w) as ->.
  { unfold after_debug_log. by destruct config_debug. }
  destruct (_save_response _ response_data _) as [[[]|e] w']; [|done].
  rewrite M_bind_unfold. unfold getitem, lift.
  destruct (_ !! "id") as [id|]; [|done]. simpl.
  destruct (truthy id); [by rewrite M_bind_unfold|].
  rewrite M_bind_unfold. destruct (_ !! "md5") as [md5|]; [|done]. simpl.
  destruct (truthy md5); [|done]. by rewrite M_bind_unfold.
Qed.

Lemma request_api_never_beatmap ident w b :
  isnumeric ident = false → (request_api ident w).1 ≠ Ok (Some b).
Proof.
  intros Hn. destruct (request_params_non_numeric ident Hn) as (params & Hp & Hid).
  rewrite (request_api_built _ _ _ Hp), Hid.
  destruct (http_client_get _ _) as [response|e]; [|done].
  destruct (json response) as [response_data|e]; [|done].
  destruct (_ && _); [|done].
  by destruct (_save_response _ _ _) as [[[]|e] w'].
Qed.

(** X7. [request_api] returns a beatmap only for a numeric identifier: for
    any other identifier, matching the MD5 pattern or not, and whatever the
    provider answers, it returns [None] or raises. *)
Theorem request_api_beatmap_needs_numeric ident w b :
  isnumeric ident = false → (request_api ident w).1 ≠ Ok (Some b).
Proof. intros Hn. by apply request_api_never_beatmap. Qed.

(** X8. What a failing lookup leaves behind.  For an identifier that is not
    numeric, when the provider answers with status 200 and a non-empty body
    that [_save_response] saves without raising, [request_api] raises the
    [KeyError] of [params['id']] after the work is done: one database session
    was opened and every entry of the body is a row of the table. *)
Theorem request_api_saves_then_raises ident params response response_data session0 w0 w :
  isnumeric ident = false →
  request_params ident = Ok params →
  http_client_get (endpoint params).1 (endpoint params).2 = Ok response →
  http_status response = 200%Z →
  json response = Ok response_data →
  truthy response_data = true →
  (_save_response session0 response_data w0).1 = Ok () →
  (request_api ident w).1 = Raise (KeyError "id") ∧
  db_sessions (request_api ident w).2 = S (db_sessions w) ∧
  ∃ entries rows,
    iterate response_data = Ok entries ∧
    Forall2 (λ entry b, beatmap_of_entry entry = Ok b) entries rows ∧
    beatmaps (request_api ident w).2 = beatmaps w ++ rows.
Proof.
  intros Hn Hp Hg Hs Hj Ht Hsave.
  destruct (request_params_non_numeric ident Hn) as (params' & Hp' & Hid).
  assert (params' = params) as -> by congruence.
  rewrite (request_api_built _ _ _ Hp), Hg, Hj, Hs, Ht, Hid. simpl.
  set (session := {| session_no := _ |}). set (w1 := set_db_sessions S _).
  rewrite (save_response_result session0 session response_data w0 w1) in Hsave.
  pose proof (keeps_save_response db_sessions session response_data
                (λ _ _, eq_refl) w1) as Hkeep.
  pose proof (for_each_save_rows session) as Hrows.
  rewrite save_response_unfold in Hsave, Hkeep |- *.
  destruct (iterate response_data) as [entries|e]; [|done].
  destruct (Hrows entries w1 Hsave) as (rows & HF & Hb).
  change (for_each entries (save_entry session) w1) with
    (for_each entries (λ entry, beatmap ← lift (beatmap_of_entry entry);
                                _ ← add_model_beatmap session beatmap;
                                mret ()) w1) in *.
  destruct (for_each entries _ w1) as [[[]|e] w2]; [|done]. simpl in *.
  split_and!; [done| |].
  - rewrite Hkeep. unfold w1, after_debug_log. by destruct config_debug.
  - exists entries, rows. split_and!; [done|done|].
    rewrite Hb. unfold w1, after_debug_log. by destruct config_debug.
Qed.

(** X9. A numeric identifier that [int] rejects stops [request_api] before
    anything happens: the exception of [int] is raised, no request is sent,
    nothing is logged and the world is as before. *)
Theorem request_api_int_rejects ident e w :
  isnumeric ident = true →
  int_ (VStr ident) = Raise e →
  request_api ident w = (Raise e, w).
Proof.
  intros Hn Hi. unfold request_api, request_params.
  rewrite M_bind_unfold, Hn, Hi. done.
Qed.

(** X10. The API key goes to old.ppy.sh and nowhere else: the request of
    [request_api] either goes to old.ppy.sh with the configured key as [k],
    or, when no key is configured, to osu.direct without a [k]. *)
Theorem request_api_key_destination ident params :
  request_params ident = Ok params →
  (config_osu_api_v1_key ≠ "" ∧
   (endpoint params).1 = "https://old.ppy.sh/api/get_beatmaps" ∧
   (endpoint params).2 !! "k" = Some (VStr config_osu_api_v1_key)) ∨
  (config_osu_api_v1_key = "" ∧
   (endpoint params).1 = "https://osu.direct/api/get_beatmaps" ∧
   (endpoint params).2 !! "k" = None).
Proof.
  intros Hp%request_params_no_key. unfold endpoint.
  destruct (String.eqb config_osu_api_v1_key "") eqn:Hk; simpl.
  - right. apply String.eqb_eq in Hk. done.
  - left. apply String.eqb_neq in Hk. split_and!; [done|done|].
    by rewrite lookup_insert_eq.
Qed.

(** What [request_api] does to the tables and the session counter, whatever
    it returns or raises. *)
Lemma request_api_world ident w :
  scores (request_api ident w).2 = scores w ∧
  (db_sessions (request_api ident w).2 = db_sessions w ∨
   db_sessions (request_api ident w).2 = S (db_sessions w)) ∧
  ∃ rows,
    beatmaps (request_api ident w).2 = beatmaps w ++ rows ∧
    Forall (λ b, ∃ entry, beatmap_of_entry entry = Ok b) rows.
Proof.
  split; [by apply (keeps_request_api scores)|].
  destruct (request_params ident) as [params|e] eqn:Hp.
  2:{ unfold request_api. rewrite M_bind_unfold, Hp. simpl.
      split; [by left|]. exists []. by rewrite app_nil_r. }
  assert (beatmaps (after_debug_log params w) = beatmaps w ∧
          db_sessions (after_debug_log params w) = db_sessions w) as [Hb Hs].
  { unfold after_debug_log. by destruct config_debug. }
  assert (∀ r : result (option Beatmap.row),
            (db_sessions (r, after_debug_log params w).2 = db_sessions w ∨
             db_sessions (r, after_debug_log params w).2 = S (db_sessions w)) ∧
            ∃ rows, beatmaps (r, after_debug_log params w).2 = beatmaps w ++ rows ∧
                    Forall (λ b, ∃ entry, beatmap_of_entry entry = Ok b) rows) as Hnone.
  { intros r. simpl. split; [by left|]. exists []. by rewrite app_nil_r. }
  rewrite (request_api_built _ _ _ Hp).
  destruct (http_client_get _ _) as [response|e]; [|apply Hnone].
  destruct (json response) as [response_data|e]; [|apply Hnone].
  destruct (_ && _); [|apply Hnone].
  set (session := {| session_no := _ |}). set (w1 := set_db_sessions S _).
  pose proof (keeps_save_response db_sessions session response_data
                (λ _ _, eq_refl) w1) as Hkeep.
  destruct (save_response_appends session response_data w1) as (rows & Hr & Hrows).
  assert (∀ r : result (option Beatmap.row),
            (db_sessions (r, (_save_response session response_data w1).2).2
               = db_sessions w ∨
             db_sessions (r, (_save_response session response_data w1).2).2
               = S (db_sessions w)) ∧
            ∃ rows, beatmaps (r, (_save_response session response_data w1).2).2
                      = beatmaps w ++ rows ∧
                    Forall (λ b, ∃ entry, beatmap_of_entry entry = Ok b) rows) as Hsaved.
  { intros r. simpl. split.
    - right. rewrite Hkeep. unfold w1. simpl. by rewrite Hs.
    - exists rows. split; [|done]. rewrite Hr. unfold w1. simpl. by rewrite Hb. }
  destruct (_save_response session response_data w1) as [[[]|e] w2];
    [|apply Hsaved].
  destruct (_ !! "id") as [id|]; [|apply Hsaved].
  destruct (truthy id); [apply Hsaved|].
  destruct (_ !! "md5") as [md5|]; [|apply Hsaved].
  destruct (truthy md5); apply Hsaved.
Qed.

(** Whatever the outcome, the loop has saved the first entries, in order. *)
Lemma for_each_save_split session entries : ∀ w,
  ∃ pre post rows,
    entries = pre ++ post ∧
    Forall2 (λ entry b, beatmap_of_entry entry = Ok b) pre rows ∧
    beatmaps (for_each entries (save_entry session) w).2 = beatmaps w ++ rows.
Proof.
  induction entries as [|entry entries IH]; intros w; simpl.
  - exists [], [], []. split_and!; [done|constructor|by rewrite app_nil_r].
  - rewrite M_bind_unfold, save_entry_unfold.
    destruct (beatmap_of_entry entry) as [b|e] eqn:Hb.
    + destruct (IH (set_beatmaps (λ t, t ++ [b]) w)) as (pre & post & rows & -> & HF & ->).
      exists (entry :: pre), post, (b :: rows).
      split_and!; [done|by constructor|]. simpl. by rewrite <- app_assoc.
    + exists [], (entry :: entries), []. simpl.
      split_and!; [done|constructor|by rewrite app_nil_r].
Qed.

(** The rows [request_api] adds, whatever it returns or raises: none, or
    rows from the provider's answer. *)
Lemma request_api_rows ident w :
  ∃ rows,
    beatmaps (request_api ident w).2 = beatmaps w ++ rows ∧
    (rows = [] ∨ from_answer ident rows).
Proof.
  destruct (request_params ident) as [params|e] eqn:Hp.
  2:{ unfold request_api. rewrite M_bind_unfold, Hp. simpl.
      exists []. split; [by rewrite app_nil_r|by left]. }
  assert (beatmaps (after_debug_log params w) = beatmaps w) as Hb.
  { unfold after_debug_log. by destruct config_debug. }
  assert (∀ r : result (option Beatmap.row),
            ∃ rows, beatmaps (r, after_debug_log params w).2 = beatmaps w ++ rows ∧
                    (rows = [] ∨ from_answer ident rows)) as Hnone.
  { intros r. exists []. simpl. split; [by rewrite app_nil_r|by left]. }
  rewrite (request_api_built _ _ _ Hp).
  destruct (http_client_get _ _) as [response|e] eqn:Hg; [|apply Hnone].
  destruct (json response) as [response_data|e] eqn:Hj; [|apply Hnone].
  destruct (_ && _) eqn:Hc; [|apply Hnone].
  apply andb_true_iff in Hc as [Hs%Z.eqb_eq Ht].
  set (session := {| session_no := _ |}). set (w1 := set_db_sessions S _).
  assert (∀ r : result (option Beatmap.row),
            ∃ rows, beatmaps (r, (_save_response session response_data w1).2).2
                      = beatmaps w ++ rows ∧
                    (rows = [] ∨ from_answer ident rows)) as Hsaved.
  { intros r. simpl. rewrite save_response_unfold.
    destruct (iterate response_data) as [entries|e] eqn:Hi.
    - destruct (for_each_save_split session entries w1) as (pre & post & rows & He & HF & Hr).
      exists rows. split.
      + rewrite Hr. unfold w1. simpl. by rewrite Hb.
      + right. by exists params, response, response_data, entries, pre, post.
    - exists []. simpl. unfold w1. simpl. rewrite Hb.
      split; [by rewrite app_nil_r|by left]. }
  destruct (_save_response session response_data w1) as [[[]|e] w2];
    [|apply Hsaved].
  destruct (_ !! "id") as [id|]; [|apply Hsaved].
  destruct (truthy id); [apply Hsaved|].
  destruct (_ !! "md5") as [md5|]; [|apply Hsaved].
  destruct (truthy md5); apply Hsaved.
Qed.

(** ** [BeatmapRequestOperator.operate] *)

(** X11. The response of [operate] is well formed: it carries the key it was
    asked for, and it is a success with a beatmap or a failure without one. *)
Theorem operate_response_shape session args w m :
  (operate session args w).1 = Ok m →
  identifier m = args ∧
  ((status m = success ∧ is_Some (data m)) ∨ (status m = failure ∧ data m = None)).
Proof.
  rewrite operate_unfold.
  destruct (lookup_ident (beatmaps w) args) as [b|].
  - simpl. intros [= <-]. split; [done|]. left. by eauto.
  - destruct (request_api args (set_db_sessions S w)) as [[[b|]|e] w'];
      simpl; [| |done]; intros [= <-]; (split; [done|]); [left|right]; by eauto.
Qed.

(** X12. [operate] opens one database session when the local store has the
    key and at most two when it has to ask the provider; it never opens
    none. *)
Theorem operate_sessions session args w :
  (is_Some (lookup_ident (beatmaps w) args) →
     db_sessions (operate session args w).2 = S (db_sessions w)) ∧
  (S (db_sessions w) ≤ db_sessions (operate session args w).2 ≤ S (S (db_sessions w)))%nat.
Proof.
  rewrite operate_unfold.
  destruct (lookup_ident (beatmaps w) args) as [b|] eqn:Hl.
  - simpl. split; [done|lia].
  - split; [by intros [? ?]|].
    destruct (request_api_world args (set_db_sessions S w)) as (_ & Hs & _).
    destruct (request_api args (set_db_sessions S w)) as [[[b|]|e] w'];
      simpl in *; lia.
Qed.

(** X13. [operate] only adds to the beatmaps table: the rows it found are
    still there, in their places, followed by rows from the provider's
    answer to the request for the key: either none, or the answer was good
    and the new rows are those of the first entries of its body, in order.
    None is added when the local store has the key; the scores table is not
    touched.  This holds also when [operate] raises. *)
Theorem operate_only_appends session args w :
  scores (operate session args w).2 = scores w ∧
  (is_Some (lookup_ident (beatmaps w) args) →
     beatmaps (operate session args w).2 = beatmaps w) ∧
  ∃ rows,
    beatmaps (operate session args w).2 = beatmaps w ++ rows ∧
    (rows = [] ∨ from_answer args rows).
Proof.
  rewrite operate_unfold.
  destruct (lookup_ident (beatmaps w) args) as [b|] eqn:Hl.
  - simpl. split_and!; [done|done|]. exists []. split; [by rewrite app_nil_r|by left].
  - destruct (request_api_world args (set_db_sessions S w)) as (Hsc & _ & _).
    destruct (request_api_rows args (set_db_sessions S w)) as (rows & Hr & Hrows).
    split_and!.
    + by destruct (request_api args (set_db_sessions S w)) as [[[b|]|e] w'].
    + by intros [? ?].
    + exists rows. split; [|done].
      by destruct (request_api args (set_db_sessions S w)) as [[[b|]|e] w'].
Qed.

(** X19. Identifiers that are not numeric are served from the local store
    only: when the store does not have such a key, [operate] never answers
    with a success, whatever the provider sends; it answers with a failure
    or raises. *)
Theorem operate_miss_non_numeric session args w :
  lookup_ident (beatmaps w) args = None →
  isnumeric args = false →
  (operate session args w).1 =
    Ok {| identifier := args; status := failure; data := None |} ∨
  ∃ e, (operate session args w).1 = Raise e.
Proof.
  intros Hl Hn. rewrite operate_unfold, Hl.
  pose proof (λ b, request_api_never_beatmap args (set_db_sessions S w) b Hn) as Hb.
  destruct (request_api args (set_db_sessions S w)) as [[[b|]|e] w']; simpl in *.
  - by destruct (Hb b).
  - by left.
  - right. by exists e.
Qed.

(** ** [get_beatmap] *)

(** X14. [get_beatmap] only reads: it always returns, and the world after it
    differs by the one session it opened.  It answers from the local store
    alone, and it agrees with [operate] there: when it finds a beatmap,
    [operate] answers a success with that beatmap without adding a row; when
    it answers "Beatmap not found.", [operate] goes on to the provider. *)
Theorem get_beatmap_agrees_with_operate session ident w :
  ∃ r, get_beatmap ident w = (Ok r, set_db_sessions S w) ∧
    ((∃ b, r = APIResponse.Make None None (Some b) ∧
           (operate session ident w).1 =
             Ok {| identifier := ident; status := success; data := Some b |} ∧
           beatmaps (operate session ident w).2 = beatmaps w) ∨
     (r = APIResponse.Make (Some false) (Some "Beatmap not found.") None ∧
      (operate session ident w).2 = (request_api ident (set_db_sessions S w)).2)).
Proof.
  unfold get_beatmap. rewrite M_bind_unfold. simpl. rewrite M_bind_unfold. simpl.
  rewrite operate_unfold.
  destruct (lookup_ident (beatmaps w) ident) as [b|].
  - eexists. split; [done|]. left. by exists b.
  - eexists. split; [done|]. right. split; [done|].
    by destruct (request_api ident (set_db_sessions S w)) as [[[b|]|e] w'].
Qed.

(** ** [stream_beatmap] *)

Lemma keeps_new_operation {B} (f : World → B) session args :
  (∀ g w, f (set_operator g w) = f w) → keeps f (new_operation session args).
Proof. intros Hf w. apply Hf. Qed.

(** X15. [stream_beatmap] does no database work of its own: it opens no
    session and leaves both tables alone.  It writes one line to the log,
    with the user's name and the number of identifiers. *)
Theorem stream_beatmap_frame request idents user w :
  beatmaps (stream_beatmap request idents user w).2 = beatmaps w ∧
  scores (stream_beatmap request idents user w).2 = scores w ∧
  db_sessions (stream_beatmap request idents user w).2 = db_sessions w ∧
  console (stream_beatmap request idents user w).2 =
    console w ++ [LogStreaming (User.username user) (length idents)].
Proof.
  assert (∀ {B} (f : World → B),
            (∀ g w, f (set_operator g w) = f w) →
            f (stream_beatmap request idents user w).2 =
            f (set_console (λ c, c ++ [LogStreaming (User.username user) (length idents)]) w))
    as Hframe.
  { intros B f Hf. unfold stream_beatmap. rewrite M_bind_unfold. simpl.
    apply (keeps_bind f); [|by auto with keeps].
    apply keeps_for_each. intros ident. by apply keeps_new_operation. }
  split_and!; by rewrite Hframe.
Qed.

End MoreProperties.

(** ** [Score.from_web] *)

Section FromWeb.
Context {scoring : Scoring}.

Lemma keywords_two (info : gmap string value) k1 v1 k2 v2 :
  k1 ≠ k2 →
  keywords info [(k1, v1); (k2, v2)] =
    match info !! k1, info !! k2 with
    | None, None => Ok (<[k2 := v2]> (<[k1 := v1]> info))
    | _, _ => Raise (TypeError "got multiple values for keyword argument")
    end.
Proof.
  intros Hne. simpl. destruct (info !! k1); [done|].
  rewrite lookup_insert_ne by done. by destruct (info !! k2).
Qed.

(** X16. A score that [from_web] returns was built from the client's [info]
    and from the stage: the formula of the stage is in [dict_id2obj], [info]
    has neither [stage_id] nor [performance_points], and the constructor got
    the keys of [info] together with the stage's id as [stage_id] and the
    formula's result as [performance_points]. *)
Theorem from_web_inversion info stage r :
  from_web info stage = Ok r →
  ∃ calculate pp,
    dict_id2obj !! Stage.formula stage = Some calculate ∧
    calculate (Stage.mode stage) = Ok pp ∧
    info !! "stage_id" = None ∧
    info !! "performance_points" = None ∧
    Score_new (<["performance_points" := VFloat pp]>
                 (<["stage_id" := VInt (Stage.id stage)]> info)) = Ok (raw r).
Proof.
  unfold from_web, getitem_formula. unfold mbind, result_bind.
  destruct (dict_id2obj !! Stage.formula stage) as [calculate|]; [|done].
  destruct (calculate (Stage.mode stage)) as [pp|e] eqn:Hc; [|done].
  rewrite keywords_two by done.
  destruct (info !! "stage_id"); [done|].
  destruct (info !! "performance_points"); [done|].
  destruct (Score_new _) as [score|e] eqn:Hn; [|done].
  intros [= <-]. by exists calculate, pp.
Qed.

(** X17. The client cannot set what the server computes: when [info] names
    [stage_id] or [performance_points], [from_web] returns no score.  It
    raises what the formula lookup or the formula raises, and otherwise the
    [TypeError] of the repeated keyword, before the constructor is called. *)
Theorem from_web_protected_fields info stage :
  is_Some (info !! "stage_id") ∨ is_Some (info !! "performance_points") →
  from_web info stage =
    match getitem_formula (Stage.formula stage) ≫= (λ calculate, calculate (Stage.mode stage)) with
    | Ok _ => Raise (TypeError "got multiple values for keyword argument")
    | Raise e => Raise e
    end.
Proof.
  intros Hdup. unfold from_web. unfold mbind, result_bind.
  destruct (getitem_formula (Stage.formula stage)) as [calculate|e]; [|done].
  destruct (calculate (Stage.mode stage)) as [pp|e]; [|done].
  rewrite keywords_two by done.
  destruct Hdup as [[v Hv]|[v Hv]]; rewrite Hv; [done|].
  by destruct (info !! "stage_id").
Qed.

End FromWeb.

(** ** [Team.position_of] *)

(** X18. [position_of] cannot return a position: the body of [class Team]
    binds no name [team], so unless a [Team] has that attribute from
    elsewhere, the call raises [AttributeError] for every team and every
    user: at [self.team], or before it at [session.scalar] when the team is
    attached to no session. *)
Theorem position_of_raises {membership : Membership} (self : team_object) (user_id : Z) :
  inherited_attribute self "team" = None →
  position_of self user_id =
    inl (AttributeError (if object_session self is Some _ then "team" else "scalar")).
Proof.
  intros Hnone. unfold position_of, Team_getattr.
  destruct (object_session self); [|done].
  rewrite decide_False; [by rewrite Hnone|].
  unfold Team_names. rewrite !elem_of_cons, elem_of_nil.
  intros Hin. repeat destruct Hin as [Hin|Hin]; done.
Qed.

(** ** The further properties at concrete inputs *)

Lemma beatmap_of_entry_columns_witness :
  ∃ d, sample_entry sample_md5 "75" "2020-01-02 03:04:05" = VDict d ∧
       d !! "approved" = Some (Beatmap.ranked_status sample_row) ∧
       column_from d "diff_overall"
         (float_ (Externals := sample_runtime (answer 200 found) true))
         (Beatmap.od sample_row) ∧
       valid_datetime (Beatmap.server_updated_at sample_row).
Proof.
  destruct (@beatmap_of_entry_columns (sample_runtime (answer 200 found) true)
              (sample_entry sample_md5 "75" "2020-01-02 03:04:05") sample_row)
    as (d & Hd & H); [vm_compute; reflexivity|].
  exists d. split; [exact Hd|]. tauto.
Defined.

Lemma save_response_stops_at_bad_entry_witness :
  (_save_response (runtime := sample_runtime (answer 200 second_entry_bad) true)
     {| session_no := 0 |} second_entry_bad empty_world).1 =
    Raise (ValueError "invalid literal for int() with base 10") ∧
  beatmaps (_save_response (runtime := sample_runtime (answer 200 second_entry_bad) true)
              {| session_no := 0 |} second_entry_bad empty_world).2 =
    beatmaps empty_world ++ [sample_row].
Proof.
  apply (@save_response_stops_at_bad_entry
           (sample_runtime (answer 200 second_entry_bad) true)
           {| session_no := 0 |} second_entry_bad
           [sample_entry sample_md5 "75" "2020-01-02 03:04:05"] [sample_row]
           (sample_entry zeros_md5 "76" "")
           [sample_entry zeros_md5 "77" "2020-01-02 03:04:05"]
           (ValueError "invalid literal for int() with base 10") empty_world).
  - reflexivity.
  - constructor; [vm_compute; reflexivity|constructor].
  - vm_compute. reflexivity.
Defined.

Lemma save_response_keeps_dates_valid_witness :
  Forall (λ b, valid_datetime (Beatmap.server_updated_at b))
    (beatmaps (_save_response (runtime := sample_runtime (answer 200 found) true)
                 {| session_no := 0 |} found empty_world).2).
Proof.
  apply (@save_response_keeps_dates_valid (sample_runtime (answer 200 found) true)
           {| session_no := 0 |} found empty_world).
  constructor.
Defined.

Lemma request_api_beatmap_needs_numeric_witness :
  (request_api (runtime := sample_runtime (answer 200 found) true)
     sample_md5 empty_world).1 ≠ Ok (Some sample_row).
Proof.
  apply (@request_api_beatmap_needs_numeric (sample_runtime (answer 200 found) true)
           sample_md5 empty_world sample_row).
  vm_compute. reflexivity.
Defined.

Lemma request_api_saves_then_raises_witness :
  (request_api (runtime := sample_runtime (answer 200 found) true)
     sample_md5 empty_world).1 = Raise (KeyError "id") ∧
  db_sessions (request_api (runtime := sample_runtime (answer 200 found) true)
                 sample_md5 empty_world).2 = 1 ∧
  ∃ entries rows,
    iterate found = Ok entries ∧
    Forall2 (λ entry b,
               beatmap_of_entry (runtime := sample_runtime (answer 200 found) true) entry
               = Ok b) entries rows ∧
    beatmaps (request_api (runtime := sample_runtime (answer 200 found) true)
                sample_md5 empty_world).2 = beatmaps empty_world ++ rows.
Proof.
  apply (@request_api_saves_then_raises (sample_runtime (answer 200 found) true)
           sample_md5 {[ "md5" := VStr sample_md5 ]}
           {| http_status := 200; json := Ok found |} found
           {| session_no := 0 |} empty_world empty_world);
    vm_compute; reflexivity.
Defined.

Lemma request_api_int_rejects_witness :
  request_api (runtime := superscript_runtime (answer 200 found))
    superscript_two empty_world =
    (Raise (ValueError "invalid literal for int() with base 10"), empty_world).
Proof.
  apply (@request_api_int_rejects (superscript_runtime (answer 200 found))
           superscript_two (ValueError "invalid literal for int() with base 10")
           empty_world);
    vm_compute; reflexivity.
Defined.

Lemma request_api_key_destination_witness :
  (config_osu_api_v1_key (Externals := superscript_runtime (answer 200 found)) ≠ "" ∧
   (endpoint (runtime := superscript_runtime (answer 200 found))
      {[ "id" := VInt 75 ]}).1 = "https://old.ppy.sh/api/get_beatmaps" ∧
   (endpoint (runtime := superscript_runtime (answer 200 found))
      {[ "id" := VInt 75 ]}).2 !! "k" =
     Some (VStr (config_osu_api_v1_key
                   (Externals := superscript_runtime (answer 200 found))))) ∨
  (config_osu_api_v1_key (Externals := superscript_runtime (answer 200 found)) = "" ∧
   (endpoint (runtime := superscript_runtime (answer 200 found))
      {[ "id" := VInt 75 ]}).1 = "https://osu.direct/api/get_beatmaps" ∧
   (endpoint (runtime := superscript_runtime (answer 200 found))
      {[ "id" := VInt 75 ]}).2 !! "k" = None).
Proof.
  apply (@request_api_key_destination (superscript_runtime (answer 200 found)) "75"
           {[ "id" := VInt 75 ]}).
  vm_compute. reflexivity.
Defined.

Lemma operate_response_shape_witness :
  identifier {| identifier := "75"; status := success; data := Some sample_row |} = "75" ∧
  ((status {| identifier := "75"; status := success; data := Some sample_row |} = success ∧
    is_Some (data {| identifier := "75"; status := success; data := Some sample_row |})) ∨
   (status {| identifier := "75"; status := success; data := Some sample_row |} = failure ∧
    data {| identifier := "75"; status := success; data := Some sample_row |} = None)).
Proof.
  apply (@operate_response_shape (sample_runtime (answer 200 found) true)
           "7" "75" empty_world).
  vm_compute. reflexivity.
Defined.

Lemma from_web_inversion_witness :
  ∃ calculate pp,
    dict_id2obj (Scoring := sample_scoring) !! Stage.formula sample_stage = Some calculate ∧
    calculate (Stage.mode sample_stage) = Ok pp ∧
    ({[ "score" := VInt 5 ]} : gmap string value) !! "stage_id" = None ∧
    ({[ "score" := VInt 5 ]} : gmap string value) !! "performance_points" = None ∧
    Score_new (Scoring := sample_scoring)
      (<["performance_points" := VFloat pp]>
         (<["stage_id" := VInt (Stage.id sample_stage)]> {[ "score" := VInt 5 ]})) =
      Ok (<["performance_points" := VFloat (Float64 0)]>
            (<["stage_id" := VInt 3]> {[ "score" := VInt 5 ]})).
Proof.
  assert (from_web (scoring := sample_scoring) {[ "score" := VInt 5 ]} sample_stage =
            Ok {| raw := <["performance_points" := VFloat (Float64 0)]>
                           (<["stage_id" := VInt 3]> {[ "score" := VInt 5 ]}) |}) as Hf
    by (vm_compute; reflexivity).
  exact (@from_web_inversion sample_scoring _ sample_stage _ Hf).
Defined.

Lemma from_web_protected_fields_witness :
  from_web (scoring := sample_scoring) {[ "stage_id" := VInt 9 ]} sample_stage =
    Raise (TypeError "got multiple values for keyword argument").
Proof.
  apply (@from_web_protected_fields sample_scoring {[ "stage_id" := VInt 9 ]} sample_stage).
  left. exists (VInt 9). reflexivity.
Defined.

Lemma position_of_raises_witness :
  position_of (membership := sample_membership) () 7 = inl (AttributeError "team").
Proof.
  apply (@position_of_raises sample_membership () 7). reflexivity.
Defined.

Lemma operate_miss_non_numeric_witness :
  (operate (runtime := sample_runtime (answer 200 found) true)
     "7" sample_md5 empty_world).1 =
    Ok {| identifier := sample_md5; status := failure; data := None |} ∨
  ∃ e, (operate (runtime := sample_runtime (answer 200 found) true)
          "7" sample_md5 empty_world).1 = Raise e.
Proof.
  apply (@operate_miss_non_numeric (sample_runtime (answer 200 found) true)
           "7" sample_md5 empty_world);
    vm_compute; reflexivity.
Defined.

Lemma save_response_needs_list_witness :
  ∃ msg,
    _save_response (runtime := sample_runtime (answer 200 found) true)
      {| session_no := 0 |} (VDict {[ "error" := VStr "Please provide a valid API key." ]})
      empty_world = (Raise (TypeError msg), empty_world).
Proof.
  apply (@save_response_needs_list (sample_runtime (answer 200 found) true)
           {| session_no := 0 |}
           (VDict {[ "error" := VStr "Please provide a valid API key." ]}) empty_world).
  - vm_compute. reflexivity.
  - intros l. discriminate.
Defined.
